(** * The conjecture-prove bootstrapping loop of [learning/bootstrap.py]

    A shallow embedding of the iteration controller: task dispatch and
    collection ([prove_conjectures]), the success statistics
    ([get_log_probs], [ratio_proven], [mean_hard_sol_log_prob]), the
    hindsight collection with its percentile threshold, the validation
    pass ([get_val_loss]), the two checkpoint modes with their resume
    logic, and the [for] loop of [teacher_loop] with its two [break]s.

    Conventions.
    - Python [float]s are modelled by rationals [Q]: every statement below
      is about which numbers are combined and how, never about rounding.
    - A Python exception is a value [Raise e] of the [result] monad.
    - The collaborators that the module only calls (the proof-search
      worker, the agent's training step, the derivation engine, numpy's
      percentile) are the fields of the class [Collaborators].
    - The run directory is a record [Dir] of the files the loop reads and
      writes; [os.chdir(continue_dir)] is modelled by handing the content
      of that directory to the loop. *)

From Stdlib Require Import QArith Qround ZArith Lia.
From stdpp Require Import gmap strings list fin_maps fin_sets sorting.

Close Scope Q_scope.
Local Open Scope Z_scope.

(* ===================================================================== *)
(** ** Exceptions and the error monad *)

Inductive PyExn : Type :=
| ZeroDivisionError
| UnboundLocalError
| IndexError
| KeyError
| FileNotFoundError
| ValueError.

Inductive result (A : Type) : Type :=
| Ok (a : A)
| Raise (e : PyExn).
Arguments Ok {A} a.
Arguments Raise {A} e.

(** [result] is a monad in stdpp's sense: [x ← r; k] runs [k] on the
    value of [r] and propagates an exception. *)
#[export] Instance result_ret : MRet result := fun A a => Ok a.
#[export] Instance result_bind : MBind result := fun A B k r =>
  match r with
  | Ok a => k a
  | Raise e => Raise e
  end.

(** A list comprehension whose body may raise: the first exception wins. *)
Fixpoint rmap {A B : Type} (f : A -> result B) (l : list A) : result (list B) :=
  match l with
  | [] => Ok []
  | x :: l' => y ← f x; ys ← rmap f l'; Ok (y :: ys)
  end.

(** A list comprehension whose condition may raise: the condition is
    evaluated once per element, so not at all on an empty list. *)
Fixpoint rfilter {A : Type} (p : A -> result bool) (l : list A)
    : result (list A) :=
  match l with
  | [] => Ok []
  | x :: l' =>
      b ← p x; ys ← rfilter p l'; Ok (if b : bool then x :: ys else ys)
  end.

(** [d[k]] on an optional value: [KeyError]/[IndexError]/... when absent. *)
Definition or_raise {A : Type} (e : PyExn) (o : option A) : result A :=
  match o with
  | Some a => Ok a
  | None => Raise e
  end.

(* ===================================================================== *)
(** ** Data model *)

(** [hindsight.HindsightExample]: the fields the loop reads. *)
Record HindsightExample : Type := {
  h_goal : string;
  h_examples : list string;
  h_logprob : Q
}.

(** [worker.StudentResult]: the fields the loop reads.  [error] is [None]
    or a message; the proof is an opaque serialised artifact. *)
Record StudentResult : Type := {
  error : option string;
  success : bool;
  problem : string;
  proof : string;
  logprob : Q;
  extracted_examples : list string;
  hindsight_examples : list HindsightExample;
  iterations : Z
}.

(** [worker.BackgroundTheory(theory, premises)]. *)
Record BackgroundTheory : Type := {
  bt_theory : string;
  bt_premises : list string
}.

(** The options of [cfg] that the loop reads.  [difficulty_buckets] is a
    list of one-entry mappings name -> percentile, each given by its
    items; [continue_] says whether [cfg.get('continue')] is not [None]. *)
Record Config : Type := {
  goals : string;
  theory_name : string;
  premises : list string;
  difficulty_buckets : list (list (string * Q));
  continue_ : bool;
  checkpoint_per_iteration : bool;
  freeze_conjecturer : bool;
  mcts_only : bool;
  train_policy_on_hindsight_examples : bool;
  total_iterations : Z;
  max_mcts_nodes : Z;
  early_exit : bool
}.

(** The external collaborators, for a type [Agent] of (opaque,
    serialisable) agents. *)
Class Collaborators (Agent : Type) : Type := {
  (** [make_agent(cfg, mle_log)] *)
  make_agent : Config -> Agent;
  (** [worker.try_prove] run on a dump of the agent *)
  try_prove : Agent -> BackgroundTheory -> string -> bool -> StudentResult;
  (** [agent.train(examples, final_goals, ratio_proven, mle_log)]: the
      agent after the in-place update *)
  train : Agent -> list string -> list string -> Q -> Agent;
  (** [d.elaborate] of the derivation that incorporated the theory *)
  elaborate : string -> string -> string;
  (** [np.percentile(sample, p)] *)
  np_percentile : list Q -> Q -> result Q
}.

(** Python truthiness of [student_result.error]. *)
Definition truthy (e : option string) : bool :=
  match e with
  | None => false
  | Some EmptyString => false
  | Some (String _ _) => true
  end.

(** [FAIL = "fail"] *)
Definition FAIL : string := "fail".

(* ===================================================================== *)
(** ** Numbers *)

(** [sum(l)]: left to right from [0]. *)
Definition py_sum (l : list Q) : Q := fold_left Qplus l (0 # 1)%Q.

(** [len(l)] as a number. *)
Definition len {A : Type} (l : list A) : Z := Z.of_nat (length l).

(** [a / b] on integers (true division). *)
Definition py_truediv (a b : Z) : result Q :=
  if b =? 0 then Raise ZeroDivisionError
  else Ok (inject_Z a / inject_Z b)%Q.

(** [np.mean(l)] and [sum(l)/len(l)] on a non-empty list of numbers. *)
Definition np_mean (l : list Q) : Q := (py_sum l / inject_Z (len l))%Q.

(** [np.mean(l) if l else 0] *)
Definition mean_or_zero (lps : list Q) : Q :=
  match lps with
  | [] => (0 # 1)%Q
  | _ :: _ => np_mean lps
  end.

(* ===================================================================== *)
(** ** Task dispatch and collection *)

Section Dispatch.
Context {Agent : Type} `{!Collaborators Agent}.

(** A task handle: in single-process mode the task is the result; in
    distributed mode the handle is only ever used to [get] that result. *)
Definition Task : Type := StudentResult.

Definition submit_task (agent_dump : Agent) (theory : BackgroundTheory)
    (statement : string) (search_budget : bool) : Task :=
  try_prove agent_dump theory statement search_budget.

Definition get_task_result (task : Task) : StudentResult := task.

(** The first loop of [prove_conjectures]: [tasks.append(submit_task ...)]. *)
Definition submit_all (agent_dump : Agent) (theory : string)
    (premises : list string) (is_eval : bool) (conjectures : list string)
    : list Task :=
  fold_left
    (fun tasks conjecture =>
       tasks ++ [submit_task agent_dump
                   {| bt_theory := theory; bt_premises := premises |}
                   conjecture is_eval])
    conjectures [].

(** One round of the second loop: [continue] on an error, else append. *)
Definition collect_step (student_results : list StudentResult) (task : Task)
    : list StudentResult :=
  let student_result := get_task_result task in
  if truthy (error student_result) then student_results
  else student_results ++ [student_result].

Definition prove_conjectures (agent : Agent) (conjectures : list string)
    (theory : string) (premises : list string) (is_eval : bool)
    : list StudentResult :=
  let agent_dump := agent in
  let tasks := submit_all agent_dump theory premises is_eval conjectures in
  fold_left collect_step tasks [].

(** The result of every job, errored or not, in submission order. *)
Definition job_results (agent_dump : Agent) (theory : string)
    (premises : list string) (is_eval : bool) (conjectures : list string)
    : list StudentResult :=
  map (fun c =>
         try_prove agent_dump
           {| bt_theory := theory; bt_premises := premises |} c is_eval)
      conjectures.

(** [get_log_probs] *)
Definition get_log_probs (student_results : list StudentResult) : list Q :=
  fold_left
    (fun success_logprobs student_result =>
       if success student_result
       then success_logprobs ++ [logprob student_result]
       else success_logprobs)
    student_results [].

(** [get_val_loss]: the validation loss and the search-step counts. *)
Definition get_val_loss (agent : Agent) (final_goals_formatted : list string)
    (theory : string) (premises : list string) : Q * list Z :=
  let student_results_final :=
    prove_conjectures agent final_goals_formatted theory premises true in
  let success_logprobs_final := get_log_probs student_results_final in
  let mean_success_logprobs_final :=
    if 0 <? len success_logprobs_final
    then (py_sum success_logprobs_final
            / inject_Z (len success_logprobs_final))%Q
    else (- (10 # 1))%Q in
  let num_mcts_steps := map iterations student_results_final in
  ((- mean_success_logprobs_final)%Q, num_mcts_steps).

End Dispatch.

(* ===================================================================== *)
(** ** Difficulty buckets *)

(** [sorted(l, key=lambda kv: kv[1])]: a stable sort by percentile. *)
Fixpoint insert_bucket (kv : string * Q) (l : list (string * Q))
    : list (string * Q) :=
  match l with
  | [] => [kv]
  | kv' :: l' =>
      if Qle_bool (snd kv) (snd kv') then kv :: kv' :: l'
      else kv' :: insert_bucket kv l'
  end.

Definition sorted_by_percentile (l : list (string * Q)) : list (string * Q) :=
  foldr insert_bucket [] l.

(** The order the sort works with. *)
Definition percentile_le (a b : string * Q) : Prop := (snd a <= snd b)%Q.

(** [[list(cfg.difficulty_buckets[i].items())[0] for i in range(...)]],
    sorted: the first item of every mapping; an empty mapping has none. *)
Definition load_difficulty_buckets (cfg : Config)
    : result (list (string * Q)) :=
  items ← rmap (fun d => or_raise IndexError (head d)) (difficulty_buckets cfg);
  Ok (sorted_by_percentile items).

(* ===================================================================== *)
(** ** The run directory, the loop state, one iteration *)

Inductive LogRecord : Type :=
| LogPosing (iteration : Z) (conjectures : list string)
| LogTraining (iteration : Z) (n_examples : nat).

(** One [mle_log.update] call. *)
Record MetricRow : Type := {
  num_iterations : Z;
  val_loss : Q;
  final_goals_proven : nat;
  ratio_proven : Q;
  mean_hard_sol_log_probs : Q
}.

(** What the loop has built when a round's classification is over. *)
Record Classified : Type := {
  examples : list string;
  proven_conjectures_iteration : list string;
  proven_conjectures' : list string;
  proofs' : list string;
  student_result' : option StudentResult
}.

(** What the hindsight loop has built. *)
Record Hindsight : Type := {
  hs_examples : list string;
  seen_hindsight_goals' : gset string;
  hindsight_log_probs : list Q
}.

(** The hindsight examples of [hs] whose goal is not among [before] and
    does not occur earlier in [hs], in the order of [hs]. *)
Definition first_per_goal_after (before : list string)
    (hs : list HindsightExample) : list HindsightExample :=
  concat
    (imap (fun k h =>
             if decide (h_goal h ∈ before ++ (h_goal <$> take k hs))
             then [] else [h])
          hs).

(** The hindsight examples that come first for their goal. *)
Definition first_per_goal (hs : list HindsightExample)
    : list HindsightExample :=
  first_per_goal_after [] hs.

Inductive Termination : Type :=
| Exhausted
| SearchOnly (i : Z)
| Converged (i : Z).

Section TeacherLoop.
Context {Agent : Type} `{!Collaborators Agent}.

(** The files of the working directory: [{i}.pt], [model.pt],
    [model_info.yaml], [log.jsonl], [examples_{i}.json],
    [proven_conj_{i}.json]. *)
Record Dir : Type := {
  pt_files : gmap Z Agent;
  model_pt : option Agent;
  model_info_yaml : option (gmap string Z);
  log_jsonl : list LogRecord;
  examples_json : gmap Z (list string);
  proven_conj_json : gmap Z (list string)
}.

(** The locals of [teacher_loop] that outlive a round, the working
    directory and the metrics sink.  [student_result] is the variable of
    the classification [for], which keeps its last value after the loop
    and into the next rounds. *)
Record LoopState : Type := {
  agent : Agent;
  proven_conjectures : list string;
  seen_hindsight_goals : gset string;
  proofs : list string;
  student_results_final : list StudentResult;
  model_info : gmap string Z;
  student_result : option StudentResult;
  cwd : Dir;
  mle_log : list MetricRow
}.

Definition log_write (r : LogRecord) (d : Dir) : Dir :=
  {| pt_files := pt_files d; model_pt := model_pt d;
     model_info_yaml := model_info_yaml d;
     log_jsonl := log_jsonl d ++ [r];
     examples_json := examples_json d;
     proven_conj_json := proven_conj_json d |}.

(** [open('log.jsonl', 'w')] *)
Definition log_open (d : Dir) : Dir :=
  {| pt_files := pt_files d; model_pt := model_pt d;
     model_info_yaml := model_info_yaml d;
     log_jsonl := [];
     examples_json := examples_json d;
     proven_conj_json := proven_conj_json d |}.

(** [save_json(examples, f'examples_{i}.json')] and
    [save_json(proven_conjectures_iteration, f'proven_conj_{i}.json')] *)
Definition save_jsons (i : Z) (ex pr : list string) (d : Dir) : Dir :=
  {| pt_files := pt_files d; model_pt := model_pt d;
     model_info_yaml := model_info_yaml d;
     log_jsonl := log_jsonl d;
     examples_json := <[i := ex]> (examples_json d);
     proven_conj_json := <[i := pr]> (proven_conj_json d) |}.

(** [torch.save(agent, f"{i}.pt")] *)
Definition save_pt (i : Z) (a : Agent) (d : Dir) : Dir :=
  {| pt_files := <[i := a]> (pt_files d); model_pt := model_pt d;
     model_info_yaml := model_info_yaml d;
     log_jsonl := log_jsonl d;
     examples_json := examples_json d;
     proven_conj_json := proven_conj_json d |}.

(** [torch.save(agent, "model.pt")], then [yaml.dump(model_info, f)] into
    [model_info.yaml]. *)
Definition save_rolling (a : Agent) (mi : gmap string Z) (d : Dir) : Dir :=
  {| pt_files := pt_files d; model_pt := Some a;
     model_info_yaml := Some mi;
     log_jsonl := log_jsonl d;
     examples_json := examples_json d;
     proven_conj_json := proven_conj_json d |}.

(** *** Resume *)

(** [i = 0; while os.path.exists(f'{i}.pt'): i += 1].  The directory
    holds [size files] checkpoints, so the loop leaves within
    [size files + 1] rounds ([first_missing_absent] below): the fuel is
    never what stops it. *)
Fixpoint scan_checkpoints (files : gmap Z Agent) (fuel : nat) (i : Z) : Z :=
  match fuel with
  | O => i
  | S fuel' =>
      if decide (is_Some (files !! i))
      then scan_checkpoints files fuel' (i + 1)
      else i
  end.

Definition first_missing (files : gmap Z Agent) : Z :=
  scan_checkpoints files (S (size files)) 0.

(** The body of [if continue_dir is not None]: the agent, [model_info]
    and [start_iteration] it leaves. *)
Definition resume (cfg : Config) (d : Dir)
    : result (Agent * gmap string Z * Z) :=
  if checkpoint_per_iteration cfg then
    let i := first_missing (pt_files d) in
    let start_iteration := i in
    agent ← or_raise FileNotFoundError (pt_files d !! i);
    Ok (agent, ∅, start_iteration)
  else
    agent ← or_raise FileNotFoundError (model_pt d);
    model_info ← or_raise FileNotFoundError (model_info_yaml d);
    iteration ← or_raise KeyError (model_info !! "iteration");
    Ok (agent, model_info, iteration + 1).

(** *** Classification (3b) *)

Definition label (theory outcome : string) (sr : StudentResult) : string :=
  "Conj:(" +:+ outcome +:+ ") " +:+ elaborate theory (problem sr).

Definition classify_step (cfg : Config) (theory : string)
    (acc : Classified) (sr : StudentResult) : Classified :=
  let outcome := if success sr then "hard" else FAIL in
  let ex :=
    if freeze_conjecturer cfg then examples acc
    else examples acc ++ [label theory outcome sr] in
  {| examples := ex ++ extracted_examples sr;
     proven_conjectures_iteration :=
       if success sr then proven_conjectures_iteration acc ++ [problem sr]
       else proven_conjectures_iteration acc;
     proven_conjectures' :=
       if success sr then proven_conjectures' acc ++ [problem sr]
       else proven_conjectures' acc;
     proofs' :=
       if success sr then proofs' acc ++ [proof sr] else proofs' acc;
     student_result' := Some sr |}.

Definition classify (cfg : Config) (theory : string) (st : LoopState)
    (student_results : list StudentResult) : Classified :=
  fold_left (classify_step cfg theory) student_results
    {| examples := [];
       proven_conjectures_iteration := [];
       proven_conjectures' := proven_conjectures st;
       proofs' := proofs st;
       student_result' := student_result st |}.

(** *** Hindsight examples *)

(** One round of [for h in student_result.hindsight_examples]. *)
Definition hindsight_step (cfg : Config) (theory : string)
    (sr : StudentResult) (acc : Hindsight) (h : HindsightExample)
    : Hindsight :=
  if decide (h_goal h ∈ seen_hindsight_goals' acc) then acc
  else
    let outcome := "hard" in
    let ex :=
      if freeze_conjecturer cfg then hs_examples acc
      else hs_examples acc ++ [label theory outcome sr] in
    {| hs_examples := ex ++ h_examples h;
       seen_hindsight_goals' := seen_hindsight_goals' acc ∪ {[h_goal h]};
       hindsight_log_probs := hindsight_log_probs acc ++ [h_logprob h] |}.

(** The loop, on the value [student_result] has when it is reached. *)
Definition collect_hindsight (cfg : Config) (theory : string)
    (ex : list string) (sr : StudentResult) : Hindsight :=
  fold_left (hindsight_step cfg theory sr) (hindsight_examples sr)
    {| hs_examples := ex;
       seen_hindsight_goals' := ∅;
       hindsight_log_probs := [] |}.

(** [thresholds], [hard_sol_log_probs] and the mean that is kept.
    [thresholds[0]] is read in the condition of the comprehension over the
    sample, once for every log-probability: with no bucket it raises
    [IndexError] on the first one, and is not read at all when the sample
    is empty. *)
Definition hindsight_mean (buckets : list (string * Q)) (lps : list Q)
    : result Q :=
  thresholds ← rmap (fun kv => np_percentile lps (snd kv)) buckets;
  hard_sol_log_probs ←
    rfilter (fun logprob =>
               t0 ← or_raise IndexError (head thresholds);
               Ok (Qle_bool t0 logprob))
            lps;
  Ok (mean_or_zero hard_sol_log_probs).

(** The block under [if cfg.train_policy_on_hindsight_examples]: the
    examples, the set of seen goals and the mean after it. *)
Definition hindsight_phase (cfg : Config) (theory : string)
    (buckets : list (string * Q)) (st : LoopState) (c : Classified)
    (mean_hard_sol_log_prob : Q) : result (list string * gset string * Q) :=
  if train_policy_on_hindsight_examples cfg then
    sr ← or_raise UnboundLocalError (student_result' c);
    let hs := collect_hindsight cfg theory (examples c) sr in
    mean ← hindsight_mean buckets (hindsight_log_probs hs);
    Ok (hs_examples hs, seen_hindsight_goals' hs, mean)
  else Ok (examples c, seen_hindsight_goals st, mean_hard_sol_log_prob).

(** *** One round of the [for] loop *)

(** [final_goals = ["Conj:(hard) " + g for g in final_goals_formatted]] *)
Definition final_goals (final_goals_formatted : list string) : list string :=
  map (fun g => "Conj:(hard) " +:+ g) final_goals_formatted.

(** [ratio_proven = len(success_logprobs)/len(conjectures)] on the
    results the dispatcher returned. *)
Definition compute_ratio_proven (student_results : list StudentResult)
    (conjectures : list string) : result Q :=
  py_truediv (len (get_log_probs student_results)) (len conjectures).

(** [student_results.extend(student_results_final)]: the list that is
    classified. *)
Definition results_to_classify (st : LoopState)
    (student_results : list StudentResult) : list StudentResult :=
  student_results ++ student_results_final st.

(** The end of a round, from the second log record on: training,
    validation, metrics, the files of the round and the checkpoint, and
    the test that ends the loop.  [d] is the directory as the round found
    it plus the first log record. *)
Definition finish_round (cfg : Config) (final_goals_formatted : list string)
    (theory : string) (i : Z) (st : LoopState) (d : Dir) (c : Classified)
    (ratio : Q) (ex : list string) (seen : gset string) (mean : Q)
    : LoopState * option Termination :=
  let cwd2 := log_write (LogTraining i (length ex)) d in
  let agent' :=
    train (agent st) ex (final_goals final_goals_formatted) ratio in
  let '(loss, num_mcts_steps) :=
    get_val_loss agent' final_goals_formatted theory (premises cfg) in
  let proven :=
    List.filter (fun s => s <=? max_mcts_nodes cfg) num_mcts_steps in
  let row :=
    {| num_iterations := i;
       val_loss := loss;
       final_goals_proven := length proven;
       ratio_proven := ratio;
       mean_hard_sol_log_probs := mean |} in
  let cwd3 := save_jsons i ex (proven_conjectures_iteration c) cwd2 in
  let model_info' :=
    if checkpoint_per_iteration cfg then model_info st
    else <["iteration" := i]> (model_info st) in
  let cwd4 :=
    if checkpoint_per_iteration cfg then save_pt i agent' cwd3
    else save_rolling agent' model_info' cwd3 in
  ({| agent := agent';
      proven_conjectures := proven_conjectures' c;
      seen_hindsight_goals := seen;
      proofs := proofs' c;
      student_results_final := student_results_final st;
      model_info := model_info';
      student_result := student_result' c;
      cwd := cwd4;
      mle_log := mle_log st ++ [row] |},
   if (len proven =? len (final_goals final_goals_formatted))
      && early_exit cfg
   then Some (Converged i) else None).

(** The body of the loop for index [i]: the state it leaves, and the
    reason when it ends in a [break]. *)
Definition iteration (cfg : Config)
    (final_goals_formatted : list string) (theory : string)
    (buckets : list (string * Q)) (i : Z) (st : LoopState)
    : result (LoopState * option Termination) :=
  let conjectures := final_goals_formatted in
  let cwd1 := log_write (LogPosing i conjectures) (cwd st) in
  let student_results :=
    prove_conjectures (agent st) conjectures theory (premises cfg) false in
  if mcts_only cfg then
    Ok ({| agent := agent st;
           proven_conjectures := proven_conjectures st;
           seen_hindsight_goals := seen_hindsight_goals st;
           proofs := proofs st;
           student_results_final := student_results_final st;
           model_info := model_info st;
           student_result := student_result st;
           cwd := cwd1;
           mle_log := mle_log st |}, Some (SearchOnly i))
  else
    let success_logprobs := get_log_probs student_results in
    ratio ← compute_ratio_proven student_results conjectures;
    let student_results := results_to_classify st student_results in
    let mean_hard_sol_log_prob := mean_or_zero success_logprobs in
    let c := classify cfg theory st student_results in
    '(ex, seen, mean) ←
      hindsight_phase cfg theory buckets st c mean_hard_sol_log_prob;
    Ok (finish_round cfg final_goals_formatted theory i st cwd1 c ratio
          ex seen mean).

(** [for i in range(...)] over the indices [idx], from state [st]. *)
Fixpoint run_loop (cfg : Config)
    (final_goals_formatted : list string) (theory : string)
    (buckets : list (string * Q)) (idx : list Z) (st : LoopState)
    : result (LoopState * Termination) :=
  match idx with
  | [] => Ok (st, Exhausted)
  | i :: idx' =>
      '(st', t) ← iteration cfg final_goals_formatted theory buckets i st;
      match t with
      | Some reason => Ok (st', reason)
      | None =>
          run_loop cfg final_goals_formatted theory buckets idx' st'
      end
  end.

(** The state in which the loop is entered. *)
Definition initial_state (a : Agent) (mi : gmap string Z) (d : Dir)
    : LoopState :=
  {| agent := a;
     proven_conjectures := [];
     seen_hindsight_goals := ∅;
     proofs := [];
     student_results_final := [];
     model_info := mi;
     student_result := None;
     cwd := log_open d;
     mle_log := [] |}.

(** [teacher_loop]: [final_goals_formatted] is what [load_final_goals]
    returned, [theory] the content of the theory file, [d] the working
    directory ([continue_dir] when the run is continued). *)
Definition teacher_loop (cfg : Config) (final_goals_formatted : list string)
    (theory : string) (d : Dir) : result (LoopState * Termination) :=
  buckets ← load_difficulty_buckets cfg;
  '(a, mi, start_iteration) ←
    (if continue_ cfg then resume cfg d else Ok (make_agent cfg, ∅, 0));
  run_loop cfg final_goals_formatted theory buckets
    (seqZ start_iteration (total_iterations cfg - start_iteration))
    (initial_state a mi d).

(** The states the loop passes through: the one it is entered in, and
    every state a completed round leaves. *)
Inductive reachable (cfg : Config) (final_goals_formatted : list string)
    (theory : string) (buckets : list (string * Q)) : LoopState -> Prop :=
| reach_init a mi d :
    reachable cfg final_goals_formatted theory buckets (initial_state a mi d)
| reach_step st i st' t :
    reachable cfg final_goals_formatted theory buckets st ->
    iteration cfg final_goals_formatted theory buckets i st = Ok (st', t) ->
    reachable cfg final_goals_formatted theory buckets st'.

(** The index of the last round that ran to its end, given the indices
    the loop was to run over and the way it ended. *)
Definition last_completed (idx : list Z) (t : Termination) : option Z :=
  match t with
  | Exhausted => last idx
  | Converged i => Some i
  | SearchOnly _ => None
  end.

End TeacherLoop.

(* ===================================================================== *)
(** ** A concrete world, for the examples *)

(** A reference percentile for the examples: linear interpolation between
    the two nearest ranks of the sorted sample; no value on an empty sample
    or for a percentile outside [0, 100]. *)
Fixpoint insert_Q (x : Q) (l : list Q) : list Q :=
  match l with
  | [] => [x]
  | y :: l' => if Qle_bool x y then x :: y :: l' else y :: insert_Q x l'
  end.

Definition percentile_linear (a : list Q) (q : Q) : result Q :=
  match foldr insert_Q [] a with
  | [] => Raise IndexError
  | (x0 :: _) as s =>
      if Qle_bool (0 # 1) q && Qle_bool q (100 # 1) then
        let v := (q / (100 # 1) * inject_Z (len s - 1))%Q in
        let lo := Qfloor v in
        let g := (v - inject_Z lo)%Q in
        let xl := nth (Z.to_nat lo) s x0 in
        let xh := nth (Z.to_nat (lo + 1)) s xl in
        Ok (Qred (xl + g * (xh - xl)))
      else Raise ValueError
  end.

(** A worker that knows four kinds of statement: ["a"] and ["b"] are
    proved, and both reach the hindsight goal ["g"]; ["e"] makes the
    worker report an error; anything else is searched in vain. *)
Definition toy_try_prove (a : nat) (bt : BackgroundTheory) (statement : string)
    (is_eval : bool) : StudentResult :=
  if String.eqb statement "a" then
    {| error := None; success := true; problem := statement;
       proof := "proof of a"; logprob := (- (1 # 1))%Q;
       extracted_examples := ["xa"];
       hindsight_examples :=
         [{| h_goal := "g"; h_examples := ["ha"];
             h_logprob := (- (1 # 1))%Q |}];
       iterations := 5 |}
  else if String.eqb statement "b" then
    {| error := None; success := true; problem := statement;
       proof := "proof of b"; logprob := (- (2 # 1))%Q;
       extracted_examples := ["xb"];
       hindsight_examples :=
         [{| h_goal := "g"; h_examples := ["hb"];
             h_logprob := (- (2 # 1))%Q |};
          {| h_goal := "g2"; h_examples := ["hb2"];
             h_logprob := (- (3 # 1))%Q |};
          {| h_goal := "g"; h_examples := ["hb3"];
             h_logprob := (- (4 # 1))%Q |}];
       iterations := 7 |}
  else if String.eqb statement "e" then
    {| error := Some "boom"; success := false; problem := statement;
       proof := EmptyString; logprob := (0 # 1)%Q;
       extracted_examples := []; hindsight_examples := [];
       iterations := 0 |}
  else
    {| error := None; success := false; problem := statement;
       proof := EmptyString; logprob := (0 # 1)%Q;
       extracted_examples := ["xf"]; hindsight_examples := [];
       iterations := 30 |}.

(** Agents are counted training steps. *)
Definition toy : Collaborators nat :=
  {| make_agent := fun _ => O;
     try_prove := toy_try_prove;
     train := fun a _ _ _ => S a;
     elaborate := fun _ statement => statement;
     np_percentile := percentile_linear |}.

Definition toy_cfg (per_iteration hindsight search_only : bool) (total : Z)
    : Config :=
  {| goals := "toy"; theory_name := "toy"; premises := [];
     difficulty_buckets :=
       [[("easy", (50 # 1)%Q)]; [("hard", (20 # 1)%Q)];
        [("triv", (100 # 1)%Q)]];
     continue_ := true;
     checkpoint_per_iteration := per_iteration;
     freeze_conjecturer := false;
     mcts_only := search_only;
     train_policy_on_hindsight_examples := hindsight;
     total_iterations := total;
     max_mcts_nodes := 10;
     early_exit := true |}.

(** The same options with hindsight training on and no difficulty bucket
    configured. *)
Definition toy_cfg_no_bucket : Config :=
  {| goals := "toy"; theory_name := "toy"; premises := [];
     difficulty_buckets := [];
     continue_ := true;
     checkpoint_per_iteration := false;
     freeze_conjecturer := false;
     mcts_only := false;
     train_policy_on_hindsight_examples := true;
     total_iterations := 10;
     max_mcts_nodes := 10;
     early_exit := true |}.

Definition toy_buckets : list (string * Q) :=
  [("hard", (20 # 1)%Q); ("easy", (50 # 1)%Q); ("triv", (100 # 1)%Q)].

Definition empty_dir : @Dir nat :=
  {| pt_files := ∅; model_pt := None; model_info_yaml := None;
     log_jsonl := []; examples_json := ∅; proven_conj_json := ∅ |}.

(** A directory in which a per-iteration run has written [0.pt], [1.pt]
    and [2.pt]. *)
Definition dir_012 : @Dir nat :=
  @save_pt nat 2 3%nat (@save_pt nat 1 2%nat (@save_pt nat 0 1%nat empty_dir)).

Definition toy_state : @LoopState nat := @initial_state nat O ∅ empty_dir.

(* ===================================================================== *)
(** * Properties *)

(** ** Lists built by appending in a loop *)

Lemma fold_left_snoc_map {A B : Type} (f : A -> B) (l : list A) (acc : list B) :
  fold_left (fun acc x => acc ++ [f x]) l acc = acc ++ map f l.
Proof.
  revert acc. induction l as [|x l IH]; intros acc; simpl.
  - by rewrite app_nil_r.
  - rewrite IH. by rewrite <- app_assoc.
Qed.

Lemma fold_left_snoc_filter {A B : Type} (keep : A -> bool) (f : A -> B)
    (l : list A) (acc : list B) :
  fold_left (fun acc x => if keep x then acc ++ [f x] else acc) l acc
  = acc ++ map f (List.filter keep l).
Proof.
  revert acc. induction l as [|x l IH]; intros acc; simpl.
  - by rewrite app_nil_r.
  - rewrite IH. destruct (keep x); simpl; [|done].
    by rewrite <- app_assoc.
Qed.

Lemma filter_sublist_of {A : Type} (keep : A -> bool) (l : list A) :
  List.filter keep l `sublist_of` l.
Proof.
  induction l as [|x l IH]; simpl; [constructor|].
  destruct (keep x); by constructor.
Qed.

Lemma filter_filter_andb {A : Type} (p q : A -> bool) (l : list A) :
  List.filter q (List.filter p l) = List.filter (fun x => p x && q x) l.
Proof.
  induction l as [|x l IH]; simpl; [done|].
  destruct (p x); simpl; [|done]. destruct (q x); by rewrite IH.
Qed.

Lemma truthy_false_iff (e : option string) :
  truthy e = false <-> e = None \/ e = Some EmptyString.
Proof.
  destruct e as [[|c s]|]; simpl; split; intros Hx; try done; auto.
  by destruct Hx.
Qed.

Section DispatchProperties.
Context {Agent : Type} `{!Collaborators Agent}.

Lemma submit_all_map a theory premises is_eval conjectures :
  submit_all a theory premises is_eval conjectures
  = job_results a theory premises is_eval conjectures.
Proof. unfold submit_all, submit_task. by rewrite fold_left_snoc_map. Qed.

Lemma collect_fold (tasks : list Task) (acc : list StudentResult) :
  fold_left collect_step tasks acc
  = acc ++ List.filter (fun r => negb (truthy (error r))) tasks.
Proof.
  revert acc. induction tasks as [|t tasks IH]; intros acc; simpl.
  - by rewrite app_nil_r.
  - rewrite IH. unfold collect_step, get_task_result.
    destruct (truthy (error t)); simpl; [done|].
    by rewrite <- app_assoc.
Qed.

Lemma prove_conjectures_filter a conjectures theory premises is_eval :
  prove_conjectures a conjectures theory premises is_eval
  = List.filter (fun r => negb (truthy (error r)))
      (job_results a theory premises is_eval conjectures).
Proof.
  unfold prove_conjectures. by rewrite submit_all_map, collect_fold.
Qed.

Lemma get_log_probs_filter (rs : list StudentResult) :
  get_log_probs rs = map logprob (List.filter success rs).
Proof. unfold get_log_probs. by rewrite fold_left_snoc_filter. Qed.

(** C4.  The dispatcher returns exactly the results whose [error] is
    empty ([None] or the empty string), in submission order: the returned
    list is the list of all job results filtered by "no error", hence a
    subsequence of it, and it is no longer than the list of submitted
    conjectures. *)
Theorem prove_conjectures_drops_errors
    (a : Agent) (conjectures : list string) (theory : string)
    (premises : list string) (is_eval : bool) :
  prove_conjectures a conjectures theory premises is_eval
  = List.filter (fun r => negb (truthy (error r)))
      (job_results a theory premises is_eval conjectures)
  /\ prove_conjectures a conjectures theory premises is_eval
       `sublist_of` job_results a theory premises is_eval conjectures
  /\ (forall r, r ∈ prove_conjectures a conjectures theory premises is_eval ->
        error r = None \/ error r = Some EmptyString)
  /\ (length (prove_conjectures a conjectures theory premises is_eval)
      <= length conjectures)%nat.
Proof.
  rewrite prove_conjectures_filter. split; [done|].
  split; [apply filter_sublist_of|]. split.
  - intros r Hr. apply list_elem_of_In, filter_In in Hr as [_ Hr].
    apply truthy_false_iff. by destruct (truthy (error r)).
  - etrans; [apply sublist_length, filter_sublist_of|].
    unfold job_results. by rewrite length_map.
Qed.

End DispatchProperties.

Section ValidationProperties.
Context {Agent : Type} `{!Collaborators Agent}.

Lemma len_pos_cons {A : Type} (x : A) (l : list A) : (0 <? len (x :: l)) = true.
Proof. unfold len. simpl length. apply Z.ltb_lt. lia. Qed.

(** C8.  The validation loss is the negated arithmetic mean (the sum
    divided by the count) of the log-probabilities of the successful
    evaluation results when there is one, and the sentinel [10] when no
    evaluation result is a success. *)
Theorem get_val_loss_value
    (a : Agent) (final_goals_formatted : list string) (theory : string)
    (premises : list string) :
  let rs := prove_conjectures a final_goals_formatted theory premises true in
  let lps := map logprob (List.filter success rs) in
  ((exists r, r ∈ rs /\ success r = true) ->
     fst (get_val_loss a final_goals_formatted theory premises)
     = (- (py_sum lps / inject_Z (len lps)))%Q)
  /\ ((forall r, r ∈ rs -> success r = false) ->
        fst (get_val_loss a final_goals_formatted theory premises)
        = (10 # 1)%Q).
Proof.
  intros rs lps. unfold get_val_loss. fold rs.
  rewrite get_log_probs_filter. fold lps. simpl fst. split.
  - intros (r & Hr & Hs).
    assert (Hin : logprob r ∈ lps).
    { apply list_elem_of_fmap. exists r. split; [done|].
      apply list_elem_of_In, filter_In. split; [|done].
      by apply list_elem_of_In. }
    destruct lps as [|x lps']; [by apply not_elem_of_nil in Hin|].
    by rewrite len_pos_cons.
  - intros Hnone.
    assert (Hnil : List.filter success rs = []).
    { induction rs as [|r rs' IH]; simpl; [done|].
      rewrite (Hnone r) by left. apply IH. intros r' Hr'.
      apply Hnone. by right. }
    unfold lps. by rewrite Hnil.
Qed.

End ValidationProperties.

Section RoundProperties.
Context {Agent : Type} `{!Collaborators Agent}.

Implicit Types (cfg : Config) (st : @LoopState Agent) (theory : string).

(** *** What a completed round is made of *)

Lemma iteration_inv cfg final_goals_formatted theory buckets i st st' t :
  mcts_only cfg = false ->
  iteration cfg final_goals_formatted theory buckets i st = Ok (st', t) ->
  let rs :=
    prove_conjectures (agent st) final_goals_formatted theory
      (premises cfg) false in
  let c := classify cfg theory st (results_to_classify st rs) in
  exists ratio ex seen mean,
    compute_ratio_proven rs final_goals_formatted = Ok ratio
    /\ hindsight_phase cfg theory buckets st c
         (mean_or_zero (get_log_probs rs)) = Ok (ex, seen, mean)
    /\ (st', t)
       = finish_round cfg final_goals_formatted theory i st
           (log_write (LogPosing i final_goals_formatted) (cwd st))
           c ratio ex seen mean.
Proof.
  intros Hm Hit rs c. unfold iteration in Hit. rewrite Hm in Hit.
  fold rs in Hit.
  destruct (compute_ratio_proven rs final_goals_formatted) as [ratio|e];
    [|done].
  simpl in Hit. fold c in Hit.
  destruct (hindsight_phase _ _ _ _ _ _) as [[[ex seen] mean]|e] eqn:Hh;
    [|done].
  simpl in Hit. exists ratio, ex, seen, mean.
  split; [done|]. split; [done|]. congruence.
Qed.

Lemma finish_round_fst cfg final_goals_formatted theory i st d c ratio ex
    seen mean :
  let agent' :=
    train (agent st) ex (final_goals final_goals_formatted) ratio in
  let st' :=
    fst (finish_round cfg final_goals_formatted theory i st d c ratio ex
           seen mean) in
  agent st' = agent'
  /\ student_results_final st' = student_results_final st
  /\ student_result st' = student_result' c
  /\ mle_log st'
     = mle_log st
       ++ [{| num_iterations := i;
              val_loss :=
                fst (get_val_loss agent' final_goals_formatted theory
                       (premises cfg));
              final_goals_proven :=
                length
                  (List.filter (fun s => s <=? max_mcts_nodes cfg)
                     (snd (get_val_loss agent' final_goals_formatted theory
                             (premises cfg))));
              ratio_proven := ratio;
              mean_hard_sol_log_probs := mean |}].
Proof. done. Qed.

Lemma finish_round_snd cfg final_goals_formatted theory i st d c ratio ex
    seen mean :
  let agent' :=
    train (agent st) ex (final_goals final_goals_formatted) ratio in
  snd (finish_round cfg final_goals_formatted theory i st d c ratio ex
         seen mean)
  = if (len (List.filter (fun s => s <=? max_mcts_nodes cfg)
               (snd (get_val_loss agent' final_goals_formatted theory
                       (premises cfg))))
        =? len (final_goals final_goals_formatted))
       && early_exit cfg
    then Some (Converged i) else None.
Proof. done. Qed.

Lemma finish_round_rolling cfg final_goals_formatted theory i st d c ratio
    ex seen mean :
  checkpoint_per_iteration cfg = false ->
  let st' :=
    fst (finish_round cfg final_goals_formatted theory i st d c ratio ex
           seen mean) in
  model_info st' = <["iteration" := i]> (model_info st)
  /\ model_pt (cwd st') = Some (agent st')
  /\ model_info_yaml (cwd st') = Some (model_info st').
Proof. intros Hc. unfold finish_round. simpl. by rewrite Hc. Qed.

Lemma iteration_inv_eq cfg final_goals_formatted theory buckets i st st' t :
  mcts_only cfg = false ->
  iteration cfg final_goals_formatted theory buckets i st = Ok (st', t) ->
  exists d c ratio ex seen mean,
    st' = fst (finish_round cfg final_goals_formatted theory i st d c ratio
                 ex seen mean)
    /\ t = snd (finish_round cfg final_goals_formatted theory i st d c ratio
                  ex seen mean).
Proof.
  intros Hm Hit.
  destruct (iteration_inv _ _ _ _ _ _ _ _ Hm Hit)
    as (ratio & ex & seen & mean & _ & _ & Heq).
  eexists _, _, ratio, ex, seen, mean. by rewrite <- Heq.
Qed.

(** *** The proven ratio *)

Lemma compute_ratio_proven_value (a : Agent) (conjectures : list string)
    theory (premises : list string) :
  conjectures <> [] ->
  compute_ratio_proven
    (prove_conjectures a conjectures theory premises false) conjectures
  = Ok (inject_Z
          (len (List.filter (fun r => negb (truthy (error r)) && success r)
                  (job_results a theory premises false conjectures)))
        / inject_Z (len conjectures))%Q.
Proof.
  intros Hne. unfold compute_ratio_proven, py_truediv.
  rewrite get_log_probs_filter, prove_conjectures_filter.
  rewrite filter_filter_andb.
  set (successes := List.filter _ _).
  replace (len (map logprob successes)) with (len successes)
    by (unfold len; by rewrite length_map).
  destruct conjectures as [|g gs]; [done|].
  assert (Hz : (len (g :: gs) =? 0) = false).
  { apply Z.eqb_neq. unfold len. simpl length. lia. }
  by rewrite Hz.
Qed.

(** A round without hindsight training runs to its end as soon as there
    is a conjecture to pose. *)
Lemma iteration_completes cfg (final_goals_formatted : list string) theory
    (buckets : list (string * Q)) (i : Z) st :
  mcts_only cfg = false ->
  train_policy_on_hindsight_examples cfg = false ->
  final_goals_formatted <> [] ->
  exists st' t,
    iteration cfg final_goals_formatted theory buckets i st = Ok (st', t).
Proof.
  intros Hm Hh Hne. unfold iteration. rewrite Hm.
  rewrite (compute_ratio_proven_value _ _ _ _ Hne). simpl.
  unfold hindsight_phase. rewrite Hh. simpl.
  destruct (finish_round _ _ _ _ _ _ _ _ _ _ _) as [st' t]. by exists st', t.
Qed.

(** C3.  With at least one conjecture submitted, [ratio_proven] is the
    number of successful results (the jobs that reported no error and a
    success), divided by the number of conjectures submitted: there is one
    job per conjecture, and the jobs dropped for an error stay in the
    denominator.  The round reports exactly this number, also when no
    result is a success. *)
Theorem ratio_proven_over_submitted
    cfg (final_goals_formatted : list string) theory
    (buckets : list (string * Q)) (i : Z) st :
  final_goals_formatted <> [] ->
  let jobs :=
    job_results (agent st) theory (premises cfg) false
      final_goals_formatted in
  let successes :=
    List.filter (fun r => negb (truthy (error r)) && success r) jobs in
  let q := (inject_Z (len successes)
            / inject_Z (len final_goals_formatted))%Q in
  len jobs = len final_goals_formatted
  /\ successes
     = List.filter success
         (prove_conjectures (agent st) final_goals_formatted theory
            (premises cfg) false)
  /\ compute_ratio_proven
       (prove_conjectures (agent st) final_goals_formatted theory
          (premises cfg) false)
       final_goals_formatted = Ok q
  /\ (forall st' t,
        mcts_only cfg = false ->
        iteration cfg final_goals_formatted theory buckets i st
        = Ok (st', t) ->
        ratio_proven <$> last (mle_log st') = Some q).
Proof.
  intros Hne jobs successes q.
  pose proof (compute_ratio_proven_value (agent st) final_goals_formatted
                theory (premises cfg) Hne) as Hq.
  fold jobs in Hq. fold successes in Hq. fold q in Hq.
  split; [unfold jobs, job_results, len; by rewrite length_map|].
  split; [by rewrite prove_conjectures_filter, filter_filter_andb|].
  split; [done|].
  intros st' t Hm Hit.
  destruct (iteration_inv _ _ _ _ _ _ _ _ Hm Hit)
    as (ratio & ex & seen & mean & Hr & _ & Heq).
  rewrite Hq in Hr. injection Hr as <-.
  apply (f_equal fst) in Heq. cbn [fst] in Heq. subst st'.
  destruct (finish_round_fst cfg final_goals_formatted theory i st
              (log_write (LogPosing i final_goals_formatted) (cwd st))
              (classify cfg theory st
                 (results_to_classify st
                    (prove_conjectures (agent st) final_goals_formatted
                       theory (premises cfg) false)))
              q ex seen mean) as (_ & _ & _ & Hlog).
  rewrite Hlog. by rewrite last_snoc.
Qed.

(** *** The list appended before classification *)

Lemma iteration_student_results_final cfg final_goals_formatted theory
    buckets i st st' t :
  iteration cfg final_goals_formatted theory buckets i st = Ok (st', t) ->
  student_results_final st' = student_results_final st.
Proof.
  intros Hit. destruct (mcts_only cfg) eqn:Hm.
  - unfold iteration in Hit. rewrite Hm in Hit. by injection Hit as <- _.
  - destruct (iteration_inv_eq _ _ _ _ _ _ _ _ Hm Hit)
      as (d & c & ratio & ex & seen & mean & -> & _).
    done.
Qed.

(** C9.  In every state the loop passes through, [student_results_final]
    is the empty list (the validation pass returns its results' loss and
    step counts and leaves the loop's variable alone), so the results
    that are classified are exactly the ones the dispatcher returned for
    the round's conjectures. *)
Theorem student_results_final_stays_empty
    cfg (final_goals_formatted : list string) theory
    (buckets : list (string * Q)) st :
  reachable cfg final_goals_formatted theory buckets st ->
  student_results_final st = []
  /\ results_to_classify st
       (prove_conjectures (agent st) final_goals_formatted theory
          (premises cfg) false)
     = prove_conjectures (agent st) final_goals_formatted theory
         (premises cfg) false.
Proof.
  intros Hreach.
  assert (Hnil : student_results_final st = []).
  { induction Hreach as [a mi d|st i st' t _ IH Hit]; [done|].
    by rewrite (iteration_student_results_final _ _ _ _ _ _ _ _ Hit). }
  split; [done|]. unfold results_to_classify. rewrite Hnil.
  apply app_nil_r.
Qed.

Lemma run_loop_reachable cfg final_goals_formatted theory buckets idx st
    st' t :
  reachable cfg final_goals_formatted theory buckets st ->
  run_loop cfg final_goals_formatted theory buckets idx st = Ok (st', t) ->
  reachable cfg final_goals_formatted theory buckets st'.
Proof.
  revert st. induction idx as [|i idx IH]; intros st Hreach Hrun.
  - simpl in Hrun. by injection Hrun as <- _.
  - simpl in Hrun.
    destruct (iteration cfg final_goals_formatted theory buckets i st)
      as [[st1 [reason|]]|e] eqn:Hit; simpl in Hrun; [| |done].
    + injection Hrun as <- _. by eapply reach_step.
    + eapply IH; [|done]. by eapply reach_step.
Qed.

End RoundProperties.

Section LoopProperties.
Context {Agent : Type} `{!Collaborators Agent}.

Implicit Types (cfg : Config) (st : @LoopState Agent) (theory : string).

Lemma filter_all {A : Type} (p : A -> bool) (l : list A) :
  (forall x, x ∈ l -> p x = true) -> List.filter p l = l.
Proof.
  induction l as [|x l IH]; intros Hall; simpl; [done|].
  rewrite (Hall x) by left. f_equal. apply IH. intros y Hy.
  apply Hall. by right.
Qed.

(** *** Early exit *)

(** C7.  With [early_exit] set, a round in which every held-out goal's
    validation job returns a result (no error) whose search-step count is
    at most [max_mcts_nodes] ends the loop: the round leaves with
    [break], so the loop stops at the end of round [i] whatever indices
    were still to come. *)
Theorem early_exit_stops_loop
    cfg (final_goals_formatted : list string) theory
    (buckets : list (string * Q)) (i : Z) st st' t :
  early_exit cfg = true ->
  mcts_only cfg = false ->
  iteration cfg final_goals_formatted theory buckets i st = Ok (st', t) ->
  (forall g, g ∈ final_goals_formatted ->
     let r := try_prove (agent st')
                {| bt_theory := theory; bt_premises := premises cfg |}
                g true in
     truthy (error r) = false /\ iterations r <= max_mcts_nodes cfg) ->
  t = Some (Converged i)
  /\ forall rest,
       run_loop cfg final_goals_formatted theory buckets (i :: rest) st
       = Ok (st', Converged i).
Proof.
  intros He Hm Hit Hall.
  assert (Ht : t = Some (Converged i)).
  { destruct (iteration_inv _ _ _ _ _ _ _ _ Hm Hit)
      as (ratio & ex & seen & mean & _ & _ & Heq).
    pose proof (f_equal fst Heq) as Hst. cbn [fst] in Hst.
    pose proof (f_equal snd Heq) as Hsnd. cbn [snd] in Hsnd.
    rewrite finish_round_snd in Hsnd.
    destruct (finish_round_fst cfg final_goals_formatted theory i st
                (log_write (LogPosing i final_goals_formatted) (cwd st))
                (classify cfg theory st
                   (results_to_classify st
                      (prove_conjectures (agent st) final_goals_formatted
                         theory (premises cfg) false)))
                ratio ex seen mean) as (Hag & _).
    rewrite <- Hst in Hag. rewrite <- Hag in Hsnd.
    unfold get_val_loss in Hsnd. cbn [snd] in Hsnd.
    rewrite prove_conjectures_filter in Hsnd.
    rewrite (filter_all (fun r => negb (truthy (error r)))) in Hsnd.
    2:{ intros r Hr. unfold job_results in Hr.
        apply list_elem_of_fmap in Hr as (g & -> & Hg).
        destruct (Hall g Hg) as [Herr _]. simpl in Herr. by rewrite Herr. }
    rewrite (filter_all (fun s => s <=? max_mcts_nodes cfg)) in Hsnd.
    2:{ intros s Hs. unfold job_results in Hs.
        apply list_elem_of_fmap in Hs as (r & -> & Hr).
        apply list_elem_of_fmap in Hr as (g & -> & Hg).
        destruct (Hall g Hg) as [_ Hle]. simpl in Hle. by apply Z.leb_le. }
    assert (Hlen : len (map iterations
                          (job_results (agent st') theory (premises cfg)
                             true final_goals_formatted))
                   = len (final_goals final_goals_formatted)).
    { unfold len, job_results, final_goals. by rewrite !length_map. }
    rewrite Hlen, Z.eqb_refl, He in Hsnd. done. }
  split; [done|]. intros rest. simpl. rewrite Hit. simpl. by rewrite Ht.
Qed.

(** *** Rolling checkpoints *)

Lemma resume_rolling cfg (d : @Dir Agent) a (mi : gmap string Z) k :
  checkpoint_per_iteration cfg = false ->
  model_pt d = Some a ->
  model_info_yaml d = Some mi ->
  mi !! "iteration" = Some k ->
  resume cfg d = Ok (a, mi, k + 1).
Proof.
  intros Hc Ha Hmi Hk. unfold resume. rewrite Hc, Ha, Hmi. simpl.
  by rewrite Hk.
Qed.

(** A round either stops for [mcts_only] before anything is trained or
    written, or runs to its end and writes its checkpoint. *)
Lemma iteration_rolling cfg final_goals_formatted theory buckets i st st' t :
  checkpoint_per_iteration cfg = false ->
  iteration cfg final_goals_formatted theory buckets i st = Ok (st', t) ->
  t = Some (SearchOnly i)
  \/ ((t = None \/ t = Some (Converged i))
      /\ model_pt (cwd st') = Some (agent st')
      /\ model_info_yaml (cwd st') = Some (model_info st')
      /\ model_info st' !! "iteration" = Some i).
Proof.
  intros Hc Hit. destruct (mcts_only cfg) eqn:Hm.
  - left. unfold iteration in Hit. rewrite Hm in Hit. by injection Hit as _ <-.
  - right.
    destruct (iteration_inv_eq _ _ _ _ _ _ _ _ Hm Hit)
      as (d & c & ratio & ex & seen & mean & -> & ->).
    destruct (finish_round_rolling cfg final_goals_formatted theory i st d c
                ratio ex seen mean Hc) as (Hmi & Hpt & Hyaml).
    split.
    { rewrite finish_round_snd. destruct (_ && _); auto. }
    split; [done|]. split; [done|].
    rewrite Hmi. apply lookup_insert_eq.
Qed.

(** C6.  In rolling mode, when the loop has ended and [k] is the index of
    the last round that ran to its end, [model_info.yaml] holds the
    loop's [model_info], its [iteration] entry is [k], and a process
    that resumes from the directory (rolling mode again) loads the agent
    of round [k] and starts at [k + 1]. *)
Theorem rolling_resume_after_checkpoint
    cfg (final_goals_formatted : list string) theory
    (buckets : list (string * Q)) (idx : list Z) st st' t (k : Z) :
  checkpoint_per_iteration cfg = false ->
  run_loop cfg final_goals_formatted theory buckets idx st = Ok (st', t) ->
  last_completed idx t = Some k ->
  model_info_yaml (cwd st') = Some (model_info st')
  /\ model_info st' !! "iteration" = Some k
  /\ (forall cfg2,
        checkpoint_per_iteration cfg2 = false ->
        resume cfg2 (cwd st') = Ok (agent st', model_info st', k + 1))
  /\ (forall cfg2 goals2 theory2,
        continue_ cfg2 = true ->
        checkpoint_per_iteration cfg2 = false ->
        teacher_loop cfg2 goals2 theory2 (cwd st')
        = buckets2 ← load_difficulty_buckets cfg2;
          run_loop cfg2 goals2 theory2 buckets2
            (seqZ (k + 1) (total_iterations cfg2 - (k + 1)))
            (initial_state (agent st') (model_info st') (cwd st'))).
Proof.
  intros Hc Hrun Hlast.
  enough (Hres : model_info_yaml (cwd st') = Some (model_info st')
                 /\ model_info st' !! "iteration" = Some k
                 /\ forall cfg2,
                      checkpoint_per_iteration cfg2 = false ->
                      resume cfg2 (cwd st')
                      = Ok (agent st', model_info st', k + 1)).
  { destruct Hres as (Hy & Hk & Hres). do 3 (split; [done|]).
    intros cfg2 goals2 theory2 Hcont Hc2. unfold teacher_loop.
    rewrite Hcont, (Hres cfg2 Hc2).
    by destruct (load_difficulty_buckets cfg2). }
  revert st Hrun Hlast.
  induction idx as [|i idx IH]; intros st Hrun Hlast.
  - simpl in Hrun. injection Hrun as <- <-. done.
  - simpl in Hrun.
    destruct (iteration cfg final_goals_formatted theory buckets i st)
      as [[st1 reason]|e] eqn:Hit; simpl in Hrun; [|done].
    destruct (iteration_rolling _ _ _ _ _ _ _ _ Hc Hit)
      as [->|([->| ->] & Hpt & Hyaml & Hk)].
    + injection Hrun as <- <-. done.
    + destruct idx as [|j idx'].
      * simpl in Hrun. injection Hrun as <- <-.
        simpl in Hlast. injection Hlast as <-.
        split; [done|]. split; [done|]. intros cfg2 Hc2.
        by apply resume_rolling.
      * apply (IH st1 Hrun). destruct t; done.
    + injection Hrun as <- <-. simpl in Hlast. injection Hlast as <-.
      split; [done|]. split; [done|]. intros cfg2 Hc2.
      by apply resume_rolling.
Qed.

End LoopProperties.

(** ** The sorted buckets *)

Lemma rmap_cons_inv {A B : Type} (f : A -> result B) x l ys :
  rmap f (x :: l) = Ok ys ->
  exists y ys', ys = y :: ys' /\ f x = Ok y /\ rmap f l = Ok ys'.
Proof.
  simpl. destruct (f x) as [y|e]; [|done]. simpl.
  destruct (rmap f l) as [ys'|e]; [|done]. simpl.
  intros [= <-]. by exists y, ys'.
Qed.

Lemma rmap_elem_of_r {A B : Type} (f : A -> result B) l ys y :
  rmap f l = Ok ys -> y ∈ ys -> exists x, x ∈ l /\ f x = Ok y.
Proof.
  revert ys. induction l as [|x l IH]; intros ys Hr Hy.
  - simpl in Hr. injection Hr as <-. by apply elem_of_nil in Hy.
  - apply rmap_cons_inv in Hr as (y0 & ys' & -> & Hx & Hr).
    apply elem_of_cons in Hy as [->|Hy].
    + exists x. split; [by left|done].
    + destruct (IH ys' Hr Hy) as (x' & Hx' & Hf). exists x'.
      split; [by right|done].
Qed.

Lemma rmap_elem_of_l {A B : Type} (f : A -> result B) l ys x :
  rmap f l = Ok ys -> x ∈ l -> exists y, y ∈ ys /\ f x = Ok y.
Proof.
  revert ys. induction l as [|x0 l IH]; intros ys Hr Hx.
  - by apply elem_of_nil in Hx.
  - apply rmap_cons_inv in Hr as (y0 & ys' & -> & Hx0 & Hr).
    apply elem_of_cons in Hx as [->|Hx].
    + exists y0. split; [by left|done].
    + destruct (IH ys' Hr Hx) as (y & Hy & Hf). exists y.
      split; [by right|done].
Qed.

Lemma insert_bucket_elem_of kv l x :
  x ∈ insert_bucket kv l <-> x = kv \/ x ∈ l.
Proof.
  induction l as [|kv' l IH]; simpl.
  - rewrite list_elem_of_singleton. rewrite elem_of_nil. tauto.
  - destruct (Qle_bool (snd kv) (snd kv')).
    + by rewrite elem_of_cons.
    + rewrite !elem_of_cons, IH. tauto.
Qed.

Lemma sorted_by_percentile_elem_of l x :
  x ∈ sorted_by_percentile l <-> x ∈ l.
Proof.
  induction l as [|kv l IH]; simpl; [done|].
  rewrite insert_bucket_elem_of, elem_of_cons, IH. tauto.
Qed.

Lemma insert_bucket_sorted kv l :
  StronglySorted percentile_le l ->
  StronglySorted percentile_le (insert_bucket kv l).
Proof.
  induction 1 as [|kv' l Hs IH Hall]; simpl.
  - repeat constructor.
  - destruct (Qle_bool (snd kv) (snd kv')) eqn:Hle.
    + apply Qle_bool_iff in Hle.
      constructor; [by constructor|]. constructor; [done|].
      eapply Forall_impl; [exact Hall|]. intros b Hb. unfold percentile_le in *.
      by eapply Qle_trans.
    + assert (Hgt : percentile_le kv' kv).
      { unfold percentile_le. apply Qlt_le_weak, Qnot_le_lt. intros Hle'.
        apply Qle_bool_iff in Hle'. congruence. }
      constructor; [done|]. apply Forall_forall. intros b Hb.
      apply insert_bucket_elem_of in Hb as [->|Hb]; [done|].
      by eapply (proj1 (Forall_forall _ _) Hall).
Qed.

Lemma sorted_by_percentile_sorted l :
  StronglySorted percentile_le (sorted_by_percentile l).
Proof.
  induction l as [|kv l IH]; simpl; [constructor|].
  by apply insert_bucket_sorted.
Qed.

(** The first bucket after sorting has the lowest percentile of all. *)
Lemma sorted_by_percentile_head l b bs :
  sorted_by_percentile l = b :: bs ->
  b ∈ l /\ forall b', b' ∈ l -> (snd b <= snd b')%Q.
Proof.
  intros Hs. split.
  - apply sorted_by_percentile_elem_of. rewrite Hs. by left.
  - intros b' Hb'. apply sorted_by_percentile_elem_of in Hb'.
    pose proof (sorted_by_percentile_sorted l) as Hsorted.
    rewrite Hs in Hsorted, Hb'. apply elem_of_cons in Hb' as [->|Hb'].
    + apply Qle_refl.
    + apply StronglySorted_inv in Hsorted as [_ Hall].
      by apply (proj1 (Forall_forall _ _) Hall).
Qed.

(** The buckets the loop works with are the first items of the configured
    mappings. *)
Lemma load_difficulty_buckets_elem_of cfg buckets kv :
  load_difficulty_buckets cfg = Ok buckets ->
  kv ∈ buckets <-> exists d, d ∈ difficulty_buckets cfg /\ head d = Some kv.
Proof.
  unfold load_difficulty_buckets. intros Hl.
  destruct (rmap _ (difficulty_buckets cfg)) as [items|e] eqn:Hr; [|done].
  simpl in Hl. injection Hl as <-. rewrite sorted_by_percentile_elem_of.
  split.
  - intros Hkv. destruct (rmap_elem_of_r _ _ _ _ Hr Hkv) as (d & Hd & Hhd).
    exists d. split; [done|]. destruct (head d); [|done].
    simpl in Hhd. by injection Hhd as ->.
  - intros (d & Hd & Hhd). destruct (rmap_elem_of_l _ _ _ _ Hr Hd) as (y & Hy & Hf).
    rewrite Hhd in Hf. simpl in Hf. by injection Hf as ->.
Qed.

Section HindsightProperties.
Context {Agent : Type} `{!Collaborators Agent}.

Implicit Types (cfg : Config) (st : @LoopState Agent) (theory : string).

(** What the hindsight block computed when it did not raise. *)
Lemma hindsight_phase_inv cfg theory buckets st c mean0 ex seen mean :
  train_policy_on_hindsight_examples cfg = true ->
  hindsight_phase cfg theory buckets st c mean0 = Ok (ex, seen, mean) ->
  exists sr,
    student_result' c = Some sr
    /\ ex = hs_examples (collect_hindsight cfg theory (examples c) sr)
    /\ seen
       = seen_hindsight_goals' (collect_hindsight cfg theory (examples c) sr)
    /\ hindsight_mean buckets
         (hindsight_log_probs
            (collect_hindsight cfg theory (examples c) sr)) = Ok mean.
Proof.
  intros Hh Hp. unfold hindsight_phase in Hp. rewrite Hh in Hp.
  destruct (student_result' c) as [sr|]; [|done]. simpl in Hp.
  destruct (hindsight_mean _ _) as [m|e] eqn:Hm; [|done]. simpl in Hp.
  injection Hp as <- <- <-. by exists sr.
Qed.

(** The comprehension over the sample, when [thresholds[0]] exists and
    when it does not. *)
Lemma rfilter_threshold (thresholds : list Q) (t0 : Q) (lps : list Q) :
  head thresholds = Some t0 ->
  rfilter (fun logprob =>
             t ← or_raise IndexError (head thresholds);
             Ok (Qle_bool t logprob)) lps
  = Ok (List.filter (fun lp => Qle_bool t0 lp) lps).
Proof.
  intros Hhd. induction lps as [|lp lps IH]; [done|].
  cbn [rfilter]. rewrite IH, Hhd. simpl. by destruct (Qle_bool t0 lp).
Qed.

Lemma rfilter_no_threshold (lp : Q) (lps : list Q) :
  rfilter (fun logprob =>
             t ← or_raise IndexError (head (@nil Q));
             Ok (Qle_bool t logprob)) (lp :: lps)
  = Raise IndexError.
Proof. done. Qed.

(** On a non-empty sample, the mean that is kept is taken over the sample
    cut at the threshold of the first bucket. *)
Lemma hindsight_mean_inv buckets lps mean :
  hindsight_mean buckets lps = Ok mean ->
  lps <> [] ->
  exists b bs t0,
    buckets = b :: bs
    /\ np_percentile lps (snd b) = Ok t0
    /\ mean = mean_or_zero (List.filter (fun lp => Qle_bool t0 lp) lps).
Proof.
  unfold hindsight_mean. intros Hm Hne.
  destruct (rmap _ buckets) as [thresholds|e] eqn:Hr; [|done].
  simpl in Hm. destruct buckets as [|b bs].
  - simpl in Hr. injection Hr as <-.
    destruct lps as [|lp lps]; [done|]. by rewrite rfilter_no_threshold in Hm.
  - apply rmap_cons_inv in Hr as (t0 & ts & -> & Hp & _).
    rewrite (rfilter_threshold _ t0) in Hm by done.
    simpl in Hm. injection Hm as <-. by exists b, bs, t0.
Qed.

(** On an empty sample the mean, when there is one, is 0. *)
Lemma hindsight_mean_nil buckets mean :
  hindsight_mean buckets [] = Ok mean -> mean = (0 # 1)%Q.
Proof.
  unfold hindsight_mean.
  destruct (rmap _ buckets) as [thresholds|e]; [|done]. simpl.
  by intros [= <-].
Qed.

(** With a bucket there is no fallback for an empty sample: the thresholds
    are taken from it all the same.  With no bucket no threshold is taken
    and none is read. *)
Lemma hindsight_mean_empty buckets :
  buckets <> [] ->
  (forall p, exists e, np_percentile [] p = Raise e) ->
  exists e, hindsight_mean buckets [] = Raise e.
Proof.
  intros Hne Hnp. unfold hindsight_mean. destruct buckets as [|b bs]; [done|].
  simpl. destruct (Hnp (snd b)) as [e He]. rewrite He. by exists e.
Qed.

Lemma hindsight_mean_no_bucket : hindsight_mean [] [] = Ok (0 # 1)%Q.
Proof. done. Qed.

(** The thresholds exist when there is a bucket and the percentile of the
    sample has a value for every bucket. *)
Lemma hindsight_mean_total (buckets : list (string * Q)) (lps : list Q) :
  buckets <> [] ->
  (forall kv, kv ∈ buckets -> exists t0, np_percentile lps (snd kv) = Ok t0) ->
  exists mean, hindsight_mean buckets lps = Ok mean.
Proof.
  intros Hne Hall. unfold hindsight_mean.
  assert (Hr : exists ts, rmap (fun kv => np_percentile lps (snd kv)) buckets
                          = Ok ts /\ length ts = length buckets).
  { clear Hne. induction buckets as [|b bs IH]; [by exists []|].
    destruct (Hall b) as [t0 Ht0]; [by left|].
    destruct IH as (ts & Hts & Hlen).
    { intros kv Hkv. apply Hall. by right. }
    exists (t0 :: ts). simpl. rewrite Ht0. simpl. rewrite Hts. simpl.
    by rewrite Hlen. }
  destruct Hr as (ts & -> & Hlen). simpl.
  destruct buckets as [|b bs]; [done|]. destruct ts as [|t0 ts]; [done|].
  rewrite (rfilter_threshold _ t0) by done. simpl. by eexists.
Qed.

(** A round with hindsight training runs to its end when there is a
    conjecture to pose, a last result to read the hindsight examples
    from, and thresholds for the sample collected from it. *)
Lemma iteration_completes_hindsight cfg (final_goals_formatted : list string)
    theory (buckets : list (string * Q)) (i : Z) st sr :
  mcts_only cfg = false ->
  final_goals_formatted <> [] ->
  let c :=
    classify cfg theory st
      (results_to_classify st
         (prove_conjectures (agent st) final_goals_formatted theory
            (premises cfg) false)) in
  student_result' c = Some sr ->
  buckets <> [] ->
  (forall kv, kv ∈ buckets ->
     exists t0,
       np_percentile
         (hindsight_log_probs (collect_hindsight cfg theory (examples c) sr))
         (snd kv) = Ok t0) ->
  exists st' t,
    iteration cfg final_goals_formatted theory buckets i st = Ok (st', t).
Proof.
  intros Hm Hne c Hsr Hb Hall. unfold iteration. rewrite Hm.
  rewrite (compute_ratio_proven_value _ _ _ _ Hne). simpl. fold c.
  unfold hindsight_phase.
  destruct (train_policy_on_hindsight_examples cfg).
  - rewrite Hsr. simpl.
    destruct (hindsight_mean_total _ _ Hb Hall) as [mean ->]. simpl.
    destruct (finish_round _ _ _ _ _ _ _ _ _ _ _) as [st' t]. by exists st', t.
  - simpl.
    destruct (finish_round _ _ _ _ _ _ _ _ _ _ _) as [st' t]. by exists st', t.
Qed.

(** C5.  With hindsight training on, in a round that runs to its end with
    a non-empty collected sample of hindsight log-probabilities, the
    reported [mean_hard_sol_log_probs] is recomputed from that sample: it
    is the arithmetic mean of the log-probabilities that are at least the
    threshold [t0], the percentile of the sample at the lowest percentile
    configured in [difficulty_buckets] (the first bucket after sorting),
    and [0] when none is.  Nothing of the mean of the success
    log-probabilities is left in it.  (With an empty sample the reported
    value is [0].) *)
Theorem hindsight_mean_supersedes
    cfg (final_goals_formatted : list string) theory
    (buckets : list (string * Q)) (i : Z) st st' t :
  train_policy_on_hindsight_examples cfg = true ->
  mcts_only cfg = false ->
  load_difficulty_buckets cfg = Ok buckets ->
  iteration cfg final_goals_formatted theory buckets i st = Ok (st', t) ->
  let c :=
    classify cfg theory st
      (results_to_classify st
         (prove_conjectures (agent st) final_goals_formatted theory
            (premises cfg) false)) in
  exists sr row,
    let lps :=
      hindsight_log_probs (collect_hindsight cfg theory (examples c) sr) in
    student_result st' = Some sr
    /\ last (mle_log st') = Some row
    /\ (lps <> [] ->
        exists b t0,
          let hard := List.filter (fun lp => Qle_bool t0 lp) lps in
          head buckets = Some b
          /\ (exists d, d ∈ difficulty_buckets cfg /\ head d = Some b)
          /\ (forall d kv, d ∈ difficulty_buckets cfg -> head d = Some kv ->
                (snd b <= snd kv)%Q)
          /\ np_percentile lps (snd b) = Ok t0
          /\ (forall lp, lp ∈ hard <-> lp ∈ lps /\ (t0 <= lp)%Q)
          /\ mean_hard_sol_log_probs row
             = match hard with
               | [] => (0 # 1)%Q
               | _ :: _ => (py_sum hard / inject_Z (len hard))%Q
               end)
    /\ (lps = [] -> mean_hard_sol_log_probs row = (0 # 1)%Q).
Proof.
  intros Hh Hm Hload Hit c.
  destruct (iteration_inv _ _ _ _ _ _ _ _ Hm Hit)
    as (ratio & ex & seen & mean & _ & Hp & Heq).
  fold c in Hp, Heq.
  apply (f_equal fst) in Heq. cbn [fst] in Heq.
  destruct (hindsight_phase_inv _ _ _ _ _ _ _ _ _ Hh Hp)
    as (sr & Hsr & _ & _ & Hmean).
  destruct (finish_round_fst cfg final_goals_formatted theory i st
              (log_write (LogPosing i final_goals_formatted) (cwd st))
              c ratio ex seen mean)
    as (_ & _ & Hres & Hlog).
  rewrite <- Heq in Hres, Hlog.
  eexists sr, _. cbv zeta.
  split; [by rewrite Hres|].
  split; [rewrite Hlog; apply last_snoc|].
  cbn [mean_hard_sol_log_probs]. split.
  - intros Hne.
    destruct (hindsight_mean_inv _ _ _ Hmean Hne)
      as (b & bs & t0 & Hb & Hnp & ->).
    exists b, t0.
    split; [by rewrite Hb|].
    assert (Hin : b ∈ buckets) by (rewrite Hb; by left).
    split; [by apply (load_difficulty_buckets_elem_of cfg buckets b Hload)|].
    split.
    { intros d kv Hd Hkv.
      unfold load_difficulty_buckets in Hload.
      destruct (rmap _ (difficulty_buckets cfg)) as [items|e] eqn:Hr; [|done].
      simpl in Hload. injection Hload as Hsorted. rewrite Hb in Hsorted.
      apply sorted_by_percentile_head in Hsorted as [_ Hmin]. apply Hmin.
      destruct (rmap_elem_of_l _ _ _ _ Hr Hd) as (y & Hy & Hf).
      rewrite Hkv in Hf. simpl in Hf. by injection Hf as ->. }
    split; [done|]. split; [|done].
    intros lp. rewrite list_elem_of_In, filter_In, <- list_elem_of_In.
    by rewrite Qle_bool_iff.
  - intros Hnil. rewrite Hnil in Hmean. by apply hindsight_mean_nil in Hmean.
Qed.

(** C10 (as amended).  With hindsight training on and at least one
    difficulty bucket, the thresholds are percentiles of the collected
    sample whatever its size: on an empty sample the computation raises,
    since the percentile of an empty sample has no value.  So a round that
    runs to its end has collected at least one hindsight log-probability.
    With no bucket no percentile is taken, and on an empty sample
    [thresholds[0]] is never read: the mean is [0]. *)
Theorem hindsight_needs_sample
    cfg (final_goals_formatted : list string) theory
    (buckets : list (string * Q)) (i : Z) st st' t :
  train_policy_on_hindsight_examples cfg = true ->
  mcts_only cfg = false ->
  buckets <> [] ->
  (forall p, exists e, np_percentile [] p = Raise e) ->
  iteration cfg final_goals_formatted theory buckets i st = Ok (st', t) ->
  let c :=
    classify cfg theory st
      (results_to_classify st
         (prove_conjectures (agent st) final_goals_formatted theory
            (premises cfg) false)) in
  (forall bs, bs <> [] -> exists e, hindsight_mean bs [] = Raise e)
  /\ hindsight_mean [] [] = Ok (0 # 1)%Q
  /\ exists sr,
       student_result st' = Some sr
       /\ hindsight_log_probs (collect_hindsight cfg theory (examples c) sr)
          <> [].
Proof.
  intros Hh Hm Hb Hnp Hit c.
  split; [intros bs Hbs; by apply hindsight_mean_empty|].
  split; [apply hindsight_mean_no_bucket|].
  destruct (iteration_inv _ _ _ _ _ _ _ _ Hm Hit)
    as (ratio & ex & seen & mean & _ & Hp & Heq).
  fold c in Hp, Heq.
  apply (f_equal fst) in Heq. cbn [fst] in Heq.
  destruct (hindsight_phase_inv _ _ _ _ _ _ _ _ _ Hh Hp)
    as (sr & Hsr & _ & _ & Hmean).
  exists sr. split.
  - rewrite Heq. by rewrite (proj1 (proj2 (proj2 (finish_round_fst _ _ _ _ _ _ _ _ _ _ _)))).
  - intros Hnil. rewrite Hnil in Hmean.
    destruct (hindsight_mean_empty buckets Hb Hnp) as [e He]. congruence.
Qed.

End HindsightProperties.

Section ResumeProperties.
Context {Agent : Type} `{!Collaborators Agent}.

(** *** Per-iteration checkpoints *)

(** The scan stops on an index without a checkpoint, or it has used all
    its fuel on indices that have one. *)
Lemma scan_checkpoints_spec (files : gmap Z Agent) (fuel : nat) (i : Z) :
  let j := scan_checkpoints files fuel i in
  (forall k, i <= k < j -> is_Some (files !! k))
  /\ (files !! j = None \/ j = i + Z.of_nat fuel).
Proof.
  revert i. induction fuel as [|fuel IH]; intros i; simpl.
  - split; [intros k Hk; lia|]. right. lia.
  - destruct (decide (is_Some (files !! i))) as [Hi|Hi].
    + destruct (IH (i + 1)) as [Hbelow Hstop]. split.
      * intros k Hk. destruct (decide (k = i)) as [->|Hne]; [done|].
        apply Hbelow. lia.
      * destruct Hstop as [Hnone|Hfuel]; [by left|]. right. lia.
    + split; [intros k Hk; lia|]. left.
      by apply eq_None_not_Some.
Qed.

(** A directory cannot hold more consecutive checkpoints than it holds
    checkpoints. *)
Lemma consecutive_checkpoints_bound (files : gmap Z Agent) (n : nat) :
  (forall k, 0 <= k < Z.of_nat n -> is_Some (files !! k)) ->
  (n <= size files)%nat.
Proof.
  intros Hall.
  assert (Hsub : (list_to_set (seqZ 0 (Z.of_nat n)) : gset Z) ⊆ dom files).
  { intros k Hk. apply elem_of_list_to_set, elem_of_seqZ in Hk.
    apply elem_of_dom, Hall. lia. }
  apply subseteq_size in Hsub.
  rewrite size_list_to_set in Hsub by apply NoDup_seqZ.
  rewrite length_seqZ, size_dom in Hsub. lia.
Qed.

(** The scan ends on the least index for which no checkpoint exists. *)
Lemma first_missing_absent (files : gmap Z Agent) :
  files !! first_missing files = None
  /\ 0 <= first_missing files
  /\ forall k, 0 <= k < first_missing files -> is_Some (files !! k).
Proof.
  unfold first_missing.
  destruct (scan_checkpoints_spec files (S (size files)) 0)
    as [Hbelow Hstop].
  assert (Hge : forall fuel i, i <= scan_checkpoints files fuel i).
  { induction fuel as [|fuel IH]; intros i; simpl; [lia|].
    destruct (decide _); [|lia]. specialize (IH (i + 1)). lia. }
  specialize (Hge (S (size files)) 0).
  set (j := scan_checkpoints files (S (size files)) 0) in *.
  split; [|done].
  destruct Hstop as [Hnone|Hfuel]; [done|]. exfalso.
  assert (Hb : (S (size files) <= size files)%nat); [|lia].
  apply consecutive_checkpoints_bound. intros k Hk. apply Hbelow. lia.
Qed.

(** Resuming a per-iteration run loads the file of the first index that
    has none: it raises whatever the directory holds. *)
Lemma resume_per_iteration_raises (cfg : Config) (d : @Dir Agent) :
  checkpoint_per_iteration cfg = true ->
  resume cfg d = Raise FileNotFoundError.
Proof.
  intros Hc. unfold resume. rewrite Hc.
  by rewrite (proj1 (first_missing_absent (pt_files d))).
Qed.

End ResumeProperties.

(* ===================================================================== *)
(** * The program on concrete inputs *)

Section Examples.
#[local] Existing Instance toy.

(** C1.  A directory holding [0.pt], [1.pt] and [2.pt]: the largest index
    with a checkpoint is 2, but the scan leaves [i = 3], the first index
    without one, and [torch.load('3.pt')] raises: neither the resume
    step nor the loop that starts with it loads [2.pt] or runs round 2. *)
Theorem resume_per_iteration_three_checkpoints :
  pt_files dir_012 !! 2 = Some 3%nat
  /\ pt_files dir_012 !! 3 = None
  /\ first_missing (pt_files dir_012) = 3
  /\ resume (toy_cfg true false false 10) dir_012 = Raise FileNotFoundError
  /\ teacher_loop (toy_cfg true false false 10) ["a"; "b"] "th" dir_012
     = Raise FileNotFoundError.
Proof. vm_compute. done. Qed.

(** C2.  Two results whose hindsight examples share the goal ["g"]: the
    one of ["a"] comes first (strings ["ha"], log-probability [-1]), the
    one of ["b"] second.  The collection runs on the last result only:
    the sample is [[-2; -3]], from ["b"], and the examples of the round
    hold ["hb"] and ["hb2"] but not ["ha"]. *)
Theorem hindsight_collects_last_result_only :
  let cfg := toy_cfg false true false 10 in
  let rs := prove_conjectures O ["a"; "b"] "th" [] false in
  let c := classify cfg "th" toy_state rs in
  (h_goal <$> (rs ≫= hindsight_examples)) = ["g"; "g"; "g2"; "g"]
  /\ (h_examples <$> head (rs ≫= hindsight_examples)) = Some ["ha"]
  /\ (exists sr,
        student_result' c = Some sr /\ problem sr = "b"
        /\ hindsight_log_probs (collect_hindsight cfg "th" (examples c) sr)
           = [(- (2 # 1))%Q; (- (3 # 1))%Q])
  /\ exists st',
       iteration cfg ["a"; "b"] "th" toy_buckets 0 toy_state
       = Ok (st', Some (Converged 0))
       /\ examples_json (cwd st') !! 0
          = Some ["Conj:(hard) a"; "xa"; "Conj:(hard) b"; "xb";
                  "Conj:(hard) b"; "hb"; "Conj:(hard) b"; "hb2"].
Proof.
  cbv zeta. split; [done|]. split; [done|]. split.
  - eexists. by vm_compute.
  - eexists. split; vm_compute; reflexivity.
Qed.

(** When every job of the first round reports an error there is no last
    result at all, and the hindsight block raises. *)
Example hindsight_without_results :
  iteration (toy_cfg false true false 10) ["e"] "th" toy_buckets 0 toy_state
  = Raise UnboundLocalError.
Proof. by vm_compute. Qed.

(** No conjecture at all: the ratio has no value. *)
Example ratio_proven_without_conjectures :
  iteration (toy_cfg false false false 10) [] "th" toy_buckets 0 toy_state
  = Raise ZeroDivisionError.
Proof. by vm_compute. Qed.

(** Three conjectures, two proved with log-probabilities [-1] and [-2],
    one job in error. *)
Lemma ratio_proven_over_submitted_witness :
  ["a"; "b"; "e"] <> ([] : list string)
  /\ compute_ratio_proven
       (prove_conjectures O ["a"; "b"; "e"] "th" [] false) ["a"; "b"; "e"]
     = Ok (inject_Z 2 / inject_Z 3)%Q.
Proof.
  split; [done|].
  exact (proj1 (proj2 (proj2 (ratio_proven_over_submitted
                                (toy_cfg false false false 10)
                                ["a"; "b"; "e"] "th" toy_buckets 0 toy_state
                                ltac:(done))))).
Defined.

Lemma get_val_loss_value_witness :
  fst (get_val_loss 1%nat ["a"; "b"; "e"] "th" [])
  = (- (py_sum [(- (1 # 1))%Q; (- (2 # 1))%Q] / inject_Z 2))%Q
  /\ fst (get_val_loss 1%nat ["f"; "e"] "th" []) = (10 # 1)%Q.
Proof.
  split.
  - assert (Hex : exists r,
               r ∈ prove_conjectures 1%nat ["a"; "b"; "e"] "th" [] true
               /\ success r = true).
    { eexists. split; [vm_compute; left|reflexivity]. }
    exact (proj1 (get_val_loss_value 1%nat ["a"; "b"; "e"] "th" []) Hex).
  - assert (Hall : forall r,
               r ∈ prove_conjectures 1%nat ["f"; "e"] "th" [] true ->
               success r = false).
    { intros r Hr. vm_compute in Hr.
      apply list_elem_of_singleton in Hr. by subst r. }
    exact (proj2 (get_val_loss_value 1%nat ["f"; "e"] "th" []) Hall).
Defined.

(** Two rounds of a rolling run that does not converge. *)
Lemma student_results_final_stays_empty_witness :
  exists st',
    run_loop (toy_cfg false false false 10) ["a"; "f"] "th" toy_buckets
      [0; 1] toy_state = Ok (st', Exhausted)
    /\ student_results_final st' = []
    /\ results_to_classify st'
         (prove_conjectures (agent st') ["a"; "f"] "th" [] false)
       = prove_conjectures (agent st') ["a"; "f"] "th" [] false.
Proof.
  eassert (Hrun : run_loop (toy_cfg false false false 10) ["a"; "f"] "th"
                    toy_buckets [0; 1] toy_state = Ok (_, Exhausted)).
  { vm_compute. reflexivity. }
  eexists. split; [exact Hrun|].
  apply (student_results_final_stays_empty
           (toy_cfg false false false 10) ["a"; "f"] "th" toy_buckets).
  exact (run_loop_reachable _ _ _ _ _ _ _ _
           (reach_init _ _ _ _ O ∅ empty_dir) Hrun).
Defined.

Lemma rolling_resume_after_checkpoint_witness :
  exists st',
    run_loop (toy_cfg false false false 10) ["a"; "f"] "th" toy_buckets
      [0; 1] toy_state = Ok (st', Exhausted)
    /\ model_info_yaml (cwd st') = Some (model_info st')
    /\ model_info st' !! "iteration" = Some 1
    /\ resume (toy_cfg false false false 10) (cwd st')
       = Ok (agent st', model_info st', 2).
Proof.
  eassert (Hrun : run_loop (toy_cfg false false false 10) ["a"; "f"] "th"
                    toy_buckets [0; 1] toy_state = Ok (_, Exhausted)).
  { vm_compute. reflexivity. }
  eexists. split; [exact Hrun|].
  destruct (rolling_resume_after_checkpoint
              (toy_cfg false false false 10) ["a"; "f"] "th" toy_buckets
              [0; 1] toy_state _ Exhausted 1 eq_refl Hrun eq_refl)
    as (Hy & Hk & Hres & _).
  split; [exact Hy|]. split; [exact Hk|].
  exact (Hres (toy_cfg false false false 10) eq_refl).
Defined.

(** Both held-out goals are proved within the node budget (5 and 7 steps
    against 10): the loop stops after round 0 of a thousand. *)
Lemma early_exit_stops_loop_witness :
  exists st',
    iteration (toy_cfg false false false 1000) ["a"; "b"] "th" toy_buckets
      0 toy_state = Ok (st', Some (Converged 0))
    /\ run_loop (toy_cfg false false false 1000) ["a"; "b"] "th" toy_buckets
         (0 :: seqZ 1 999) toy_state = Ok (st', Converged 0).
Proof.
  eassert (Hit : iteration (toy_cfg false false false 1000) ["a"; "b"] "th"
                   toy_buckets 0 toy_state = Ok (_, Some (Converged 0))).
  { vm_compute. reflexivity. }
  eexists. split; [exact Hit|].
  refine (proj2 (early_exit_stops_loop
                   (toy_cfg false false false 1000) ["a"; "b"] "th"
                   toy_buckets 0 toy_state _ _ eq_refl eq_refl Hit _)
            (seqZ 1 999)).
  intros g Hg. cbv zeta.
  apply elem_of_cons in Hg as [->|Hg]; [by vm_compute|].
  apply list_elem_of_singleton in Hg as ->. by vm_compute.
Defined.

(** A round with hindsight training: the sample is [[-2; -3]], the lowest
    percentile is 20, its threshold [-14/5], and the reported mean is
    that of [[-2]]. *)
Lemma hindsight_mean_supersedes_witness :
  exists st' row,
    iteration (toy_cfg false true false 10) ["a"; "b"; "e"] "th"
      toy_buckets 0 toy_state = Ok (st', None)
    /\ load_difficulty_buckets (toy_cfg false true false 10) = Ok toy_buckets
    /\ last (mle_log st') = Some row
    /\ mean_hard_sol_log_probs row = (py_sum [(- (2 # 1))%Q] / inject_Z 1)%Q.
Proof.
  eassert (Hit : iteration (toy_cfg false true false 10) ["a"; "b"; "e"] "th"
                   toy_buckets 0 toy_state = Ok (_, None)).
  { vm_compute. reflexivity. }
  destruct (hindsight_mean_supersedes
              (toy_cfg false true false 10) ["a"; "b"; "e"] "th" toy_buckets
              0 toy_state _ _ eq_refl eq_refl eq_refl Hit)
    as (sr & row & Hsr & Hlast & Hsome & _).
  eexists _, row. split; [exact Hit|]. split; [reflexivity|].
  split; [exact Hlast|].
  cbn [student_result] in Hsr. injection Hsr as <-.
  destruct Hsome as (b & t0 & Hb & _ & _ & Hnp & _ & Hmean); [done|].
  cbn [head toy_buckets] in Hb. injection Hb as <-.
  vm_compute in Hnp. injection Hnp as <-.
  exact Hmean.
Defined.

Lemma hindsight_needs_sample_witness :
  exists st' sr,
    iteration (toy_cfg false true false 10) ["a"; "b"; "e"] "th"
      toy_buckets 0 toy_state = Ok (st', None)
    /\ toy_buckets <> []
    /\ (forall p, exists e, percentile_linear [] p = Raise e)
    /\ student_result st' = Some sr
    /\ hindsight_log_probs
         (collect_hindsight (toy_cfg false true false 10) "th"
            (examples
               (classify (toy_cfg false true false 10) "th" toy_state
                  (results_to_classify toy_state
                     (prove_conjectures O ["a"; "b"; "e"] "th" [] false))))
            sr) <> [].
Proof.
  assert (Hnp : forall p, exists e, percentile_linear [] p = Raise e)
    by (intros p; by exists IndexError).
  assert (Hb : toy_buckets <> []) by done.
  eassert (Hit : iteration (toy_cfg false true false 10) ["a"; "b"; "e"] "th"
                   toy_buckets 0 toy_state = Ok (_, None)).
  { vm_compute. reflexivity. }
  destruct (@hindsight_needs_sample nat toy
              (toy_cfg false true false 10) ["a"; "b"; "e"] "th" toy_buckets
              0 toy_state _ _ eq_refl eq_refl Hb Hnp Hit)
    as (_ & _ & sr & Hsr & Hne).
  eexists _, sr. split; [exact Hit|]. split; [exact Hb|].
  split; [exact Hnp|]. split; [exact Hsr|exact Hne].
Defined.

(** C10 as stated fails with no difficulty bucket.  Hindsight training is
    on, the percentile of an empty sample has no value, the one result of
    the round has no hindsight example: the sample is empty, no threshold
    is taken or read, and the round runs to its end, with mean [0]. *)
Lemma round_completes_with_empty_sample :
  train_policy_on_hindsight_examples toy_cfg_no_bucket = true
  /\ load_difficulty_buckets toy_cfg_no_bucket = Ok []
  /\ (forall p, exists e, percentile_linear [] p = Raise e)
  /\ exists st' sr row,
       iteration toy_cfg_no_bucket ["f"] "th" [] 0 toy_state = Ok (st', None)
       /\ student_result st' = Some sr
       /\ hindsight_log_probs
            (collect_hindsight toy_cfg_no_bucket "th"
               (examples
                  (classify toy_cfg_no_bucket "th" toy_state
                     (results_to_classify toy_state
                        (prove_conjectures O ["f"] "th" [] false))))
               sr) = []
       /\ last (mle_log st') = Some row
       /\ mean_hard_sol_log_probs row = (0 # 1)%Q.
Proof.
  split; [done|]. split; [done|].
  split; [intros p; by exists IndexError|].
  eexists _, _, _. split; [vm_compute; reflexivity|].
  split; [reflexivity|]. split; [by vm_compute|].
  split; [reflexivity|]. reflexivity.
Qed.

End Examples.

(* ===================================================================== *)
(** * Further properties of the loop *)

(** ** Sums and means of rationals *)

Lemma fold_left_Qplus_le (t : Q) (l : list Q) (acc : Q) :
  (forall x, x ∈ l -> (x <= t)%Q) ->
  (fold_left Qplus l acc <= acc + inject_Z (len l) * t)%Q.
Proof.
  revert acc. induction l as [|x l IH]; intros acc Hall.
  - unfold len. simpl. ring_simplify. apply Qle_refl.
  - simpl fold_left. eapply Qle_trans; [apply IH|].
    + intros y Hy. apply Hall. by right.
    + assert (Hx : (x <= t)%Q) by (apply Hall; by left).
      unfold len. simpl length. rewrite Nat2Z.inj_succ, <- Z.add_1_r.
      rewrite inject_Z_plus. fold (len l).
      setoid_replace (acc + (inject_Z (len l) + inject_Z 1) * t)%Q
        with (acc + t + inject_Z (len l) * t)%Q using relation Qeq by ring.
      apply Qplus_le_compat; [|apply Qle_refl].
      apply Qplus_le_compat; [apply Qle_refl|done].
Qed.

Lemma len_cons_pos {A : Type} (x : A) (l : list A) :
  (0 < inject_Z (len (x :: l)))%Q.
Proof.
  rewrite <- (Zlt_Qlt 0). unfold len. simpl length. lia.
Qed.

(** The mean of a non-empty list lies below every upper bound of its
    elements. *)
Lemma np_mean_le (t : Q) (l : list Q) :
  l <> [] -> (forall x, x ∈ l -> (x <= t)%Q) -> (np_mean l <= t)%Q.
Proof.
  intros Hne Hall. destruct l as [|x l]; [done|]. unfold np_mean.
  apply Qle_shift_div_r; [apply len_cons_pos|].
  pose proof (fold_left_Qplus_le t (x :: l) (0 # 1)%Q Hall) as Hs.
  unfold py_sum. eapply Qle_trans; [exact Hs|].
  ring_simplify. apply Qle_refl.
Qed.

Lemma filter_length_le {A : Type} (p : A -> bool) (l : list A) :
  (length (List.filter p l) <= length l)%nat.
Proof. apply sublist_length, filter_sublist_of. Qed.

Lemma filter_length_all {A : Type} (p : A -> bool) (l : list A) :
  length (List.filter p l) = length l -> forall x, x ∈ l -> p x = true.
Proof.
  induction l as [|y l IH]; intros Hlen x Hx; [by apply elem_of_nil in Hx|].
  simpl in Hlen. destruct (p y) eqn:Hy.
  - simpl in Hlen. apply elem_of_cons in Hx as [->|Hx]; [done|].
    apply IH; [lia|done].
  - pose proof (filter_length_le p l). simpl in Hlen. lia.
Qed.

Section DispatchFurther.
Context {Agent : Type} `{!Collaborators Agent}.

(** X2.  When no job reports an error the dispatcher returns one result
    per conjecture, the result of the job of that conjecture at the same
    position. *)
Theorem prove_conjectures_without_errors
    (a : Agent) (conjectures : list string) (theory : string)
    (premises : list string) (is_eval : bool) :
  (forall c, c ∈ conjectures ->
     truthy (error (try_prove a {| bt_theory := theory;
                                   bt_premises := premises |} c is_eval))
     = false) ->
  length (prove_conjectures a conjectures theory premises is_eval)
  = length conjectures
  /\ forall (k : nat) c,
       conjectures !! k = Some c ->
       prove_conjectures a conjectures theory premises is_eval !! k
       = Some (try_prove a {| bt_theory := theory; bt_premises := premises |}
                 c is_eval).
Proof.
  intros Hok.
  assert (Heq : prove_conjectures a conjectures theory premises is_eval
                = job_results a theory premises is_eval conjectures).
  { rewrite prove_conjectures_filter. apply filter_all. intros r Hr.
    unfold job_results in Hr. apply list_elem_of_fmap in Hr as (c & -> & Hc).
    by rewrite (Hok c Hc). }
  rewrite Heq. unfold job_results. split; [by rewrite length_map|].
  intros k c Hk.
  change (map ?f ?l) with (f <$> l). by rewrite list_lookup_fmap, Hk.
Qed.

(** X3.  [get_log_probs] keeps the log-probabilities of the successful
    results, in order: it is never longer than its input, it distributes
    over concatenation, and it is empty exactly when no result is a
    success. *)
Theorem get_log_probs_successes (rs1 rs2 : list StudentResult) :
  get_log_probs (rs1 ++ rs2) = get_log_probs rs1 ++ get_log_probs rs2
  /\ (length (get_log_probs rs1) <= length rs1)%nat
  /\ (forall q, q ∈ get_log_probs rs1 <->
        exists r, r ∈ rs1 /\ success r = true /\ logprob r = q)
  /\ (get_log_probs rs1 = [] <-> forall r, r ∈ rs1 -> success r = false).
Proof.
  rewrite !get_log_probs_filter. split.
  { by rewrite List.filter_app, map_app. }
  split.
  { rewrite length_map. apply filter_length_le. }
  assert (Hmem : forall q, q ∈ map logprob (List.filter success rs1) <->
                   exists r, r ∈ rs1 /\ success r = true /\ logprob r = q).
  { intros q. change (map ?f ?l) with (f <$> l). rewrite list_elem_of_fmap.
    split.
    - intros (r & -> & Hr). apply list_elem_of_In, filter_In in Hr as [Hr Hs].
      exists r. by rewrite list_elem_of_In.
    - intros (r & Hr & Hs & <-). exists r. split; [done|].
      apply list_elem_of_In, filter_In. by rewrite <- list_elem_of_In. }
  split; [exact Hmem|]. split.
  - intros Hnil r Hr. destruct (success r) eqn:Hs; [|done].
    assert (Hin : logprob r ∈ map logprob (List.filter success rs1))
      by (apply Hmem; by exists r).
    rewrite Hnil in Hin. by apply elem_of_nil in Hin.
  - intros Hnone. destruct (map logprob (List.filter success rs1))
      as [|q qs] eqn:Hl; [done|].
    assert (Hin : q ∈ q :: qs) by left.
    apply Hmem in Hin as (r & Hr & Hs & _). by rewrite (Hnone r Hr) in Hs.
Qed.

(** X4.  The proven ratio of a round is a number between 0 and 1. *)
Theorem ratio_proven_between_0_and_1
    (a : Agent) (conjectures : list string) (theory : string)
    (premises : list string) (q : Q) :
  compute_ratio_proven
    (prove_conjectures a conjectures theory premises false) conjectures
  = Ok q ->
  (0 <= q)%Q /\ (q <= 1)%Q.
Proof.
  intros Hq. destruct conjectures as [|c cs]; [done|].
  rewrite compute_ratio_proven_value in Hq by done. injection Hq as <-.
  set (n := len (List.filter (fun r => negb (truthy (error r)) && success r)
                 (job_results a theory premises false (c :: cs)))).
  assert (Hn : 0 <= n <= len (c :: cs)).
  { unfold n, len. split; [lia|]. apply inj_le.
    etrans; [apply filter_length_le|]. unfold job_results.
    by rewrite length_map. }
  split.
  - apply Qle_shift_div_l; [apply len_cons_pos|]. rewrite Qmult_0_l.
    change 0%Q with (inject_Z 0). rewrite <- Zle_Qle. apply Hn.
  - apply Qle_shift_div_r; [apply len_cons_pos|]. rewrite Qmult_1_l.
    rewrite <- Zle_Qle. apply Hn.
Qed.

(** X5.  When the log-probability of every successful evaluation result is
    at most 0, the validation loss is at least 0. *)
Theorem val_loss_nonnegative
    (a : Agent) (final_goals_formatted : list string) (theory : string)
    (premises : list string) :
  (forall r,
     r ∈ prove_conjectures a final_goals_formatted theory premises true ->
     success r = true -> (logprob r <= 0)%Q) ->
  (0 <= fst (get_val_loss a final_goals_formatted theory premises))%Q.
Proof.
  intros Hle. unfold get_val_loss. cbn [fst].
  set (rs := prove_conjectures a final_goals_formatted theory premises true)
    in *.
  rewrite get_log_probs_filter.
  destruct (map logprob (List.filter success rs)) as [|q qs] eqn:Hl.
  - done.
  - rewrite len_pos_cons.
    assert (Hmean : (np_mean (q :: qs) <= 0)%Q).
    { apply np_mean_le; [done|]. intros x Hx. rewrite <- Hl in Hx.
      change (map ?f ?l) with (f <$> l) in Hx.
      apply list_elem_of_fmap in Hx as (r & -> & Hr).
      apply list_elem_of_In, filter_In in Hr as [Hr Hs].
      apply Hle; [by apply list_elem_of_In|done]. }
    unfold np_mean in Hmean.
    apply (Qopp_le_compat _ 0) in Hmean. exact Hmean.
Qed.

End DispatchFurther.

Section ClassificationFurther.
Context {Agent : Type} `{!Collaborators Agent}.

Implicit Types (cfg : Config) (st : @LoopState Agent) (theory : string).

(** The examples one result adds to the round's examples. *)
Lemma classify_fold cfg theory (rs : list StudentResult) (acc : Classified) :
  let c := fold_left (classify_step cfg theory) rs acc in
  examples c
  = examples acc
    ++ (rs ≫= fun sr =>
          (if freeze_conjecturer cfg then []
           else [label theory (if success sr then "hard" else FAIL) sr])
          ++ extracted_examples sr)
  /\ proven_conjectures_iteration c
     = proven_conjectures_iteration acc
       ++ (problem <$> List.filter success rs)
  /\ proven_conjectures' c
     = proven_conjectures' acc ++ (problem <$> List.filter success rs)
  /\ proofs' c = proofs' acc ++ (proof <$> List.filter success rs)
  /\ student_result' c
     = match last rs with
       | Some sr => Some sr
       | None => student_result' acc
       end.
Proof.
  induction rs as [|sr rs IH] using rev_ind; cbv zeta.
  - simpl. by rewrite !app_nil_r.
  - rewrite fold_left_app. simpl fold_left.
    destruct IH as (Hex & Hpi & Hpc & Hpf & _).
    unfold classify_step at 1 3 5 7 9. cbn [examples proven_conjectures_iteration
      proven_conjectures' proofs' student_result'].
    rewrite Hex, Hpi, Hpc, Hpf, bind_app, List.filter_app, !fmap_app, last_snoc.
    simpl. rewrite app_nil_r.
    destruct (freeze_conjecturer cfg), (success sr); simpl;
      rewrite ?app_nil_r, <- ?app_assoc; done.
Qed.

(** X7.  The examples the classification builds are, result by result in
    order, the label of the result (["hard"] for a success, ["fail"]
    otherwise; none at all when the conjecturer is frozen) followed by the
    result's extracted examples; failed results contribute theirs too. *)
Theorem classify_examples cfg theory st (rs : list StudentResult) :
  examples (classify cfg theory st rs)
  = rs ≫= (fun sr =>
             (if freeze_conjecturer cfg then []
              else ["Conj:(" +:+ (if success sr then "hard" else "fail")
                    +:+ ") " +:+ elaborate theory (problem sr)])
             ++ extracted_examples sr)
  /\ (freeze_conjecturer cfg = true ->
      examples (classify cfg theory st rs) = rs ≫= extracted_examples).
Proof.
  destruct (classify_fold cfg theory rs
              {| examples := [];
                 proven_conjectures_iteration := [];
                 proven_conjectures' := proven_conjectures st;
                 proofs' := proofs st;
                 student_result' := student_result st |}) as (Hex & _).
  unfold classify. split; [exact Hex|]. intros Hf. rewrite Hex, Hf.
  simpl. done.
Qed.

(** X8.  A round appends to the running lists and never rewrites them: the
    conjectures proven in the round are the problems of its successful
    results, they go, in the same order, to the end of
    [proven_conjectures] and into [proven_conj_{i}.json], and their
    proofs go to the end of [proofs]. *)
Theorem iteration_appends_proven
    cfg (final_goals_formatted : list string) theory
    (buckets : list (string * Q)) (i : Z) st st' t :
  mcts_only cfg = false ->
  iteration cfg final_goals_formatted theory buckets i st = Ok (st', t) ->
  let won :=
    List.filter success
      (results_to_classify st
         (prove_conjectures (agent st) final_goals_formatted theory
            (premises cfg) false)) in
  proven_conjectures st' = proven_conjectures st ++ (problem <$> won)
  /\ proofs st' = proofs st ++ (proof <$> won)
  /\ proven_conj_json (cwd st') !! i = Some (problem <$> won).
Proof.
  intros Hm Hit won.
  destruct (iteration_inv _ _ _ _ _ _ _ _ Hm Hit)
    as (ratio & ex & seen & mean & _ & _ & Heq).
  apply (f_equal fst) in Heq. cbn [fst] in Heq. subst st'.
  destruct (classify_fold cfg theory
              (results_to_classify st
                 (prove_conjectures (agent st) final_goals_formatted theory
                    (premises cfg) false))
              {| examples := [];
                 proven_conjectures_iteration := [];
                 proven_conjectures' := proven_conjectures st;
                 proofs' := proofs st;
                 student_result' := student_result st |})
    as (_ & Hpi & Hpc & Hpf & _).
  fold (classify cfg theory st
          (results_to_classify st
             (prove_conjectures (agent st) final_goals_formatted theory
                (premises cfg) false))) in Hpi, Hpc, Hpf.
  fold won in Hpi, Hpc, Hpf. simpl in Hpi, Hpc, Hpf.
  unfold finish_round. simpl.
  split; [exact Hpc|]. split; [exact Hpf|].
  destruct (checkpoint_per_iteration cfg); simpl;
    by rewrite lookup_insert_eq, Hpi.
Qed.

Lemma iteration_proofs_in_step cfg final_goals_formatted theory buckets i
    st st' t :
  iteration cfg final_goals_formatted theory buckets i st = Ok (st', t) ->
  length (proofs st) = length (proven_conjectures st) ->
  length (proofs st') = length (proven_conjectures st').
Proof.
  intros Hit Hlen. destruct (mcts_only cfg) eqn:Hm.
  - unfold iteration in Hit. rewrite Hm in Hit. by injection Hit as <- _.
  - destruct (iteration_inv _ _ _ _ _ _ _ _ Hm Hit)
      as (ratio & ex & seen & mean & _ & _ & Heq).
    apply (f_equal fst) in Heq. cbn [fst] in Heq. subst st'.
    destruct (classify_fold cfg theory
                (results_to_classify st
                   (prove_conjectures (agent st) final_goals_formatted theory
                      (premises cfg) false))
                {| examples := [];
                   proven_conjectures_iteration := [];
                   proven_conjectures' := proven_conjectures st;
                   proofs' := proofs st;
                   student_result' := student_result st |})
      as (_ & _ & Hpc & Hpf & _).
    unfold finish_round. simpl. unfold classify.
    rewrite Hpc, Hpf. simpl. rewrite !length_app, !length_fmap. lia.
Qed.

(** X9.  In every state the loop passes through, [proofs] and
    [proven_conjectures] have the same length: the proof at a position is
    the proof of the conjecture at that position. *)
Theorem proofs_match_proven_conjectures
    cfg (final_goals_formatted : list string) theory
    (buckets : list (string * Q)) st :
  reachable cfg final_goals_formatted theory buckets st ->
  length (proofs st) = length (proven_conjectures st).
Proof.
  induction 1 as [a mi d|st i st' t _ IH Hit]; [done|].
  by eapply iteration_proofs_in_step.
Qed.

End ClassificationFurther.

Section HindsightFurther.
Context {Agent : Type} `{!Collaborators Agent}.

Implicit Types (cfg : Config) (theory : string) (sr : StudentResult)
  (acc : Hindsight) (hs : list HindsightExample) (before : list string).

Lemma first_per_goal_after_cons before h hs :
  first_per_goal_after before (h :: hs)
  = (if decide (h_goal h ∈ before) then [] else [h])
    ++ first_per_goal_after (before ++ [h_goal h]) hs.
Proof.
  unfold first_per_goal_after. rewrite imap_cons. simpl concat.
  rewrite app_nil_r. f_equal. f_equal. apply imap_ext.
  intros k x _. simpl. by rewrite <- app_assoc.
Qed.

(** The examples that are kept are examples of the list, in its order,
    with goals that differ from each other and from the goals seen
    before. *)
Lemma first_per_goal_after_kept before hs :
  first_per_goal_after before hs `sublist_of` hs
  /\ NoDup (h_goal <$> first_per_goal_after before hs)
  /\ forall h, h ∈ first_per_goal_after before hs -> h_goal h ∉ before.
Proof.
  revert before. induction hs as [|h hs IH]; intros before.
  - split; [done|]. split; [constructor|]. intros h Hh.
    by apply elem_of_nil in Hh.
  - rewrite first_per_goal_after_cons.
    destruct (IH (before ++ [h_goal h])) as (Hsub & Hnd & Hout).
    assert (Hrest : forall x,
              x ∈ first_per_goal_after (before ++ [h_goal h]) hs ->
              (h_goal x ∉ before) /\ h_goal x <> h_goal h).
    { intros x Hx. specialize (Hout x Hx).
      rewrite elem_of_app, list_elem_of_singleton in Hout. tauto. }
    destruct (decide (h_goal h ∈ before)) as [Hin|Hin]; simpl.
    + split; [by apply sublist_cons|]. split; [done|].
      intros x Hx. by apply Hrest.
    + split; [by apply sublist_skip|]. split.
      * constructor; [|done]. intros Hg.
        apply list_elem_of_fmap in Hg as (x & Hgx & Hx).
        destruct (Hrest x Hx) as [_ Hne]. congruence.
      * intros x Hx. apply elem_of_cons in Hx as [->|Hx]; [done|].
        by apply Hrest.
Qed.

Lemma hindsight_step_seen cfg theory sr acc h :
  h_goal h ∈ seen_hindsight_goals' acc ->
  hindsight_step cfg theory sr acc h = acc.
Proof. intros Hin. unfold hindsight_step. by rewrite decide_True. Qed.

Lemma hindsight_step_fresh cfg theory sr acc h :
  h_goal h ∉ seen_hindsight_goals' acc ->
  hindsight_log_probs (hindsight_step cfg theory sr acc h)
  = hindsight_log_probs acc ++ [h_logprob h]
  /\ hs_examples (hindsight_step cfg theory sr acc h)
     = hs_examples acc
       ++ ((if freeze_conjecturer cfg then [] else [label theory "hard" sr])
           ++ h_examples h)
  /\ seen_hindsight_goals' (hindsight_step cfg theory sr acc h)
     = seen_hindsight_goals' acc ∪ {[h_goal h]}.
Proof.
  intros Hin. unfold hindsight_step. rewrite decide_False by done. simpl.
  split; [done|]. split; [|done].
  destruct (freeze_conjecturer cfg); simpl; [done|].
  by rewrite <- app_assoc.
Qed.

Lemma hindsight_fold_count cfg theory sr hs acc :
  length (hindsight_log_probs acc) = size (seen_hindsight_goals' acc) ->
  length (hindsight_log_probs
            (fold_left (hindsight_step cfg theory sr) hs acc))
  = size (seen_hindsight_goals'
            (fold_left (hindsight_step cfg theory sr) hs acc)).
Proof.
  revert acc. induction hs as [|h hs IH]; intros acc Hacc; simpl; [done|].
  apply IH. unfold hindsight_step.
  destruct (decide (h_goal h ∈ seen_hindsight_goals' acc)); simpl; [done|].
  rewrite length_app, size_union, size_singleton by set_solver.
  simpl. lia.
Qed.

(** The loop from any point on: [before] lists the goals seen so far. *)
Lemma hindsight_fold_exact cfg theory sr hs before acc :
  seen_hindsight_goals' acc = list_to_set before ->
  let r := fold_left (hindsight_step cfg theory sr) hs acc in
  hindsight_log_probs r
  = hindsight_log_probs acc ++ (h_logprob <$> first_per_goal_after before hs)
  /\ hs_examples r
     = hs_examples acc
       ++ (first_per_goal_after before hs ≫= fun h =>
             (if freeze_conjecturer cfg then []
              else [label theory "hard" sr]) ++ h_examples h)
  /\ seen_hindsight_goals' r = list_to_set (before ++ (h_goal <$> hs)).
Proof.
  revert before acc. induction hs as [|h hs IH]; intros before acc Hseen.
  - cbv zeta. simpl. rewrite !app_nil_r. done.
  - cbv zeta. simpl fold_left. rewrite first_per_goal_after_cons.
    destruct (decide (h_goal h ∈ before)) as [Hin|Hin].
    + assert (Hin' : h_goal h ∈ seen_hindsight_goals' acc)
        by (rewrite Hseen; by apply elem_of_list_to_set).
      rewrite (hindsight_step_seen _ _ _ _ _ Hin').
      destruct (IH (before ++ [h_goal h]) acc) as (Hl & Hex & Hs).
      { rewrite Hseen, list_to_set_app_L. simpl. set_solver. }
      simpl. rewrite Hl, Hex, Hs, <- app_assoc. done.
    + assert (Hin' : h_goal h ∉ seen_hindsight_goals' acc)
        by (rewrite Hseen; by rewrite elem_of_list_to_set).
      destruct (hindsight_step_fresh cfg theory sr acc h Hin')
        as (Hl1 & Hex1 & Hs1).
      destruct (IH (before ++ [h_goal h])
                  (hindsight_step cfg theory sr acc h)) as (Hl & Hex & Hs).
      { rewrite Hs1, Hseen, list_to_set_app_L. simpl. set_solver. }
      rewrite Hl, Hex, Hs, Hl1, Hex1. simpl.
      rewrite <- !app_assoc. done.
Qed.

(** X10.  The hindsight block removes duplicates by goal among the
    hindsight examples of the result it reads.  Of these examples exactly
    the ones that come first for their goal contribute, in order: the
    sample is the list of their log-probabilities, and the examples of the
    round are the ones the classification built followed, for each of
    them, by the label of the result (unless the conjecturer is frozen)
    and its training strings.  An example whose goal occurred earlier in
    the list adds nothing.  The set of goals the block ends with is the
    set of goals of the examples of this result, whatever earlier rounds
    saw. *)
Theorem collect_hindsight_dedup cfg theory (ex : list string) sr :
  let r := collect_hindsight cfg theory ex sr in
  let firsts := first_per_goal (hindsight_examples sr) in
  hindsight_log_probs r = h_logprob <$> firsts
  /\ hs_examples r
     = ex ++ (firsts ≫= fun h =>
                (if freeze_conjecturer cfg then []
                 else [label theory "hard" sr]) ++ h_examples h)
  /\ seen_hindsight_goals' r
     = list_to_set (h_goal <$> hindsight_examples sr)
  /\ firsts `sublist_of` hindsight_examples sr
  /\ NoDup (h_goal <$> firsts)
  /\ length (hindsight_log_probs r) = size (seen_hindsight_goals' r).
Proof.
  cbv zeta. unfold collect_hindsight, first_per_goal.
  destruct (hindsight_fold_exact cfg theory sr (hindsight_examples sr) []
              {| hs_examples := ex; seen_hindsight_goals' := ∅;
                 hindsight_log_probs := [] |} eq_refl)
    as (Hl & Hex & Hs).
  destruct (first_per_goal_after_kept [] (hindsight_examples sr))
    as (Hsub & Hnd & _).
  split; [exact Hl|]. split; [exact Hex|]. split; [exact Hs|].
  split; [exact Hsub|]. split; [exact Hnd|].
  by apply hindsight_fold_count.
Qed.

End HindsightFurther.

Section LoopFurther.
Context {Agent : Type} `{!Collaborators Agent}.

Implicit Types (cfg : Config) (st : @LoopState Agent) (theory : string).

(** X11.  The loop leaves as converged only from the round it is in, only
    with [early_exit] set, and only when every held-out goal's validation
    job returned a result (no error) whose search-step count is at most
    [max_mcts_nodes]: one validation job in error keeps the loop going,
    whatever the other goals did. *)
Theorem converged_only_if_all_solved
    cfg (final_goals_formatted : list string) theory
    (buckets : list (string * Q)) (i j : Z) st st' :
  iteration cfg final_goals_formatted theory buckets i st
  = Ok (st', Some (Converged j)) ->
  j = i
  /\ early_exit cfg = true
  /\ mcts_only cfg = false
  /\ forall g, g ∈ final_goals_formatted ->
       let r := try_prove (agent st')
                  {| bt_theory := theory; bt_premises := premises cfg |}
                  g true in
       truthy (error r) = false /\ iterations r <= max_mcts_nodes cfg.
Proof.
  intros Hit. destruct (mcts_only cfg) eqn:Hm.
  { unfold iteration in Hit. by rewrite Hm in Hit. }
  destruct (iteration_inv _ _ _ _ _ _ _ _ Hm Hit)
    as (ratio & ex & seen & mean & _ & _ & Heq).
  pose proof (f_equal fst Heq) as Hst. cbn [fst] in Hst.
  pose proof (f_equal snd Heq) as Hsnd. cbn [snd] in Hsnd.
  rewrite finish_round_snd in Hsnd.
  destruct (finish_round_fst cfg final_goals_formatted theory i st
              (log_write (LogPosing i final_goals_formatted) (cwd st))
              (classify cfg theory st
                 (results_to_classify st
                    (prove_conjectures (agent st) final_goals_formatted
                       theory (premises cfg) false)))
              ratio ex seen mean) as (Hag & _).
  rewrite <- Hst in Hag. rewrite <- Hag in Hsnd. clear Heq Hst Hag.
  unfold get_val_loss in Hsnd. cbn [snd] in Hsnd.
  rewrite prove_conjectures_filter in Hsnd.
  set (jobs := job_results (agent st') theory (premises cfg) true
                 final_goals_formatted) in *.
  set (ok := List.filter (fun r => negb (truthy (error r))) jobs) in *.
  set (within := List.filter (fun s => s <=? max_mcts_nodes cfg)
                   (map iterations ok)) in *.
  destruct (len within =? len (final_goals final_goals_formatted)) eqn:Hlen;
    [|done].
  destruct (early_exit cfg); [|done]. simpl in Hsnd.
  injection Hsnd as <-. do 3 (split; [done|]).
  apply Z.eqb_eq in Hlen. unfold len, final_goals in Hlen.
  rewrite length_map in Hlen. apply Nat2Z.inj in Hlen.
  assert (Hjobs : length jobs = length final_goals_formatted)
    by (unfold jobs, job_results; by rewrite length_map).
  pose proof (filter_length_le (fun r => negb (truthy (error r))) jobs) as H1.
  pose proof (filter_length_le (fun s => s <=? max_mcts_nodes cfg)
                (map iterations ok)) as H2.
  fold ok in H1. fold within in H2. rewrite length_map in H2.
  assert (Hok : length ok = length jobs) by lia.
  assert (Hwithin : length within = length (map iterations ok))
    by (rewrite length_map; lia).
  intros g Hg r.
  assert (Hr : r ∈ jobs).
  { unfold jobs, job_results. apply list_elem_of_fmap. by exists g. }
  pose proof (filter_length_all _ _ Hok r Hr) as Herr. simpl in Herr.
  split; [by destruct (truthy (error r))|].
  assert (Hrok : r ∈ ok).
  { unfold ok. apply list_elem_of_In, filter_In. split; [|done].
    by apply list_elem_of_In. }
  assert (Hs : iterations r ∈ map iterations ok).
  { apply list_elem_of_fmap. by exists r. }
  pose proof (filter_length_all _ _ Hwithin _ Hs) as Hle. simpl in Hle.
  by apply Z.leb_le.
Qed.

(** *** What a round and a run leave behind *)

Lemma iteration_files cfg final_goals_formatted theory buckets i st st' t :
  iteration cfg final_goals_formatted theory buckets i st = Ok (st', t) ->
  (checkpoint_per_iteration cfg = false ->
     pt_files (cwd st') = pt_files (cwd st)
     /\ forall key, key <> "iteration" ->
          model_info st' !! key = model_info st !! key)
  /\ (checkpoint_per_iteration cfg = true ->
        model_pt (cwd st') = model_pt (cwd st)
        /\ model_info_yaml (cwd st') = model_info_yaml (cwd st)
        /\ model_info st' = model_info st).
Proof.
  intros Hit. destruct (mcts_only cfg) eqn:Hm.
  - unfold iteration in Hit. rewrite Hm in Hit. injection Hit as <- _.
    simpl. split; intros _; repeat split; done.
  - destruct (iteration_inv _ _ _ _ _ _ _ _ Hm Hit)
      as (ratio & ex & seen & mean & _ & _ & Heq).
    apply (f_equal fst) in Heq. cbn [fst] in Heq. subst st'.
    unfold finish_round. simpl. split; intros Hc; rewrite Hc; simpl.
    + split; [done|]. intros key Hkey. by rewrite lookup_insert_ne.
    + done.
Qed.

Lemma iteration_round cfg final_goals_formatted theory buckets i st st' t :
  mcts_only cfg = false ->
  iteration cfg final_goals_formatted theory buckets i st = Ok (st', t) ->
  (num_iterations <$> mle_log st') = (num_iterations <$> mle_log st) ++ [i]
  /\ (t = None \/ (t = Some (Converged i) /\ early_exit cfg = true))
  /\ (checkpoint_per_iteration cfg = true ->
        pt_files (cwd st') = <[i := agent st']> (pt_files (cwd st))).
Proof.
  intros Hm Hit.
  destruct (iteration_inv _ _ _ _ _ _ _ _ Hm Hit)
    as (ratio & ex & seen & mean & _ & _ & Heq).
  pose proof (f_equal fst Heq) as Hst. cbn [fst] in Hst.
  pose proof (f_equal snd Heq) as Hsnd. cbn [snd] in Hsnd.
  subst st' t. clear Heq.
  split; [unfold finish_round; simpl; by rewrite fmap_app|]. split.
  - rewrite finish_round_snd.
    destruct (_ =? _); simpl; [|by left].
    destruct (early_exit cfg); [by right|by left].
  - intros Hc. unfold finish_round. simpl. by rewrite Hc.
Qed.

(** X12.  The two checkpoint modes keep to their own files.  A rolling run
    writes no [{i}.pt] file and changes no entry of [model_info] but
    [iteration]; a per-iteration run leaves [model.pt], [model_info.yaml]
    and [model_info] as they were. *)
Theorem checkpoint_modes_keep_apart
    cfg (final_goals_formatted : list string) theory
    (buckets : list (string * Q)) (idx : list Z) st st' t :
  run_loop cfg final_goals_formatted theory buckets idx st = Ok (st', t) ->
  (checkpoint_per_iteration cfg = false ->
     pt_files (cwd st') = pt_files (cwd st)
     /\ forall key, key <> "iteration" ->
          model_info st' !! key = model_info st !! key)
  /\ (checkpoint_per_iteration cfg = true ->
        model_pt (cwd st') = model_pt (cwd st)
        /\ model_info_yaml (cwd st') = model_info_yaml (cwd st)
        /\ model_info st' = model_info st).
Proof.
  revert st. induction idx as [|i idx IH]; intros st Hrun; simpl in Hrun.
  - injection Hrun as <- _. split; intros _; repeat split; done.
  - destruct (iteration cfg final_goals_formatted theory buckets i st)
      as [[st1 [reason|]]|e] eqn:Hit; simpl in Hrun; [| |done].
    + injection Hrun as <- _. by eapply iteration_files.
    + destruct (iteration_files _ _ _ _ _ _ _ _ Hit) as [Hr1 Hp1].
      destruct (IH st1 Hrun) as [Hr2 Hp2]. split; intros Hc.
      * destruct (Hr1 Hc) as [Ha1 Hb1]. destruct (Hr2 Hc) as [Ha2 Hb2].
        split; [congruence|]. intros key Hkey.
        rewrite Hb2 by done. by apply Hb1.
      * destruct (Hp1 Hc) as (Ha1 & Hb1 & Hc1).
        destruct (Hp2 Hc) as (Ha2 & Hb2 & Hc2). repeat split; congruence.
Qed.

Lemma run_loop_trace cfg final_goals_formatted theory buckets idx st st' t :
  mcts_only cfg = false ->
  run_loop cfg final_goals_formatted theory buckets idx st = Ok (st', t) ->
  exists rounds,
    (num_iterations <$> mle_log st')
    = (num_iterations <$> mle_log st) ++ rounds
    /\ ((t = Exhausted /\ rounds = idx)
        \/ (exists pre i rest,
              t = Converged i /\ idx = pre ++ i :: rest
              /\ rounds = pre ++ [i] /\ early_exit cfg = true))
    /\ (checkpoint_per_iteration cfg = true ->
          dom (pt_files (cwd st'))
          = dom (pt_files (cwd st)) ∪ list_to_set rounds).
Proof.
  intros Hm. revert st.
  induction idx as [|i idx IH]; intros st Hrun; simpl in Hrun.
  - injection Hrun as <- <-. exists []. rewrite app_nil_r.
    split; [done|]. split; [by left|]. intros _. set_solver.
  - destruct (iteration cfg final_goals_formatted theory buckets i st)
      as [[st1 r]|e] eqn:Hit; simpl in Hrun; [|done].
    destruct (iteration_round _ _ _ _ _ _ _ _ Hm Hit)
      as (Hrows & Hr & Hpt).
    destruct Hr as [->|[-> He]].
    + destruct (IH st1 Hrun) as (rounds & Hrows' & Hcase & Hdom).
      exists (i :: rounds). split.
      { rewrite Hrows', Hrows, <- app_assoc. done. }
      split.
      { destruct Hcase as [[-> ->]|(pre & j & rest & -> & -> & -> & He)].
        - by left.
        - right. by exists (i :: pre), j, rest. }
      intros Hc. rewrite (Hdom Hc), (Hpt Hc), dom_insert_L.
      rewrite list_to_set_cons. set_solver.
    + injection Hrun as <- <-. exists [i]. split; [done|]. split.
      { right. by exists [], i, idx. }
      intros Hc. rewrite (Hpt Hc), dom_insert_L. set_solver.
Qed.

(** X13.  The metrics sink gets one row per round that ran to its end, in
    the order of the rounds.  The loop ends either exhausted, after all
    its rounds, or converged in a round [i], after the rounds up to [i]
    and with [early_exit] set; without [early_exit] it always runs all
    its rounds. *)
Theorem run_loop_metrics_rows
    cfg (final_goals_formatted : list string) theory
    (buckets : list (string * Q)) (idx : list Z) st st' t :
  mcts_only cfg = false ->
  run_loop cfg final_goals_formatted theory buckets idx st = Ok (st', t) ->
  (exists rounds,
     (num_iterations <$> mle_log st')
     = (num_iterations <$> mle_log st) ++ rounds
     /\ ((t = Exhausted /\ rounds = idx)
         \/ (exists pre i rest,
               t = Converged i /\ idx = pre ++ i :: rest
               /\ rounds = pre ++ [i])))
  /\ (early_exit cfg = false -> t = Exhausted).
Proof.
  intros Hm Hrun.
  destruct (run_loop_trace _ _ _ _ _ _ _ _ Hm Hrun)
    as (rounds & Hrows & Hcase & _).
  split.
  - exists rounds. split; [done|].
    destruct Hcase as [?|(pre & i & rest & ? & ? & ? & _)]; [by left|].
    right. by exists pre, i, rest.
  - intros He. destruct Hcase as [[-> _]|(pre & i & rest & _ & _ & _ & He')];
      [done|congruence].
Qed.

(** X14.  After a per-iteration run of the rounds [0 .. n-1] that all ran
    to their end, in a directory with no [{n}.pt], every round has its
    checkpoint and the scan of a later resume stops at [n], the round
    after the last one: the file it then loads is the one of a round that
    has not run. *)
Theorem per_iteration_run_then_scan
    cfg (final_goals_formatted : list string) theory
    (buckets : list (string * Q)) (n : Z) st st' :
  checkpoint_per_iteration cfg = true ->
  mcts_only cfg = false ->
  0 <= n ->
  pt_files (cwd st) !! n = None ->
  run_loop cfg final_goals_formatted theory buckets (seqZ 0 n) st
  = Ok (st', Exhausted) ->
  (forall k, 0 <= k < n -> is_Some (pt_files (cwd st') !! k))
  /\ pt_files (cwd st') !! n = None
  /\ first_missing (pt_files (cwd st')) = n.
Proof.
  intros Hc Hm Hn Hfree Hrun.
  destruct (run_loop_trace _ _ _ _ _ _ _ _ Hm Hrun)
    as (rounds & _ & Hcase & Hdom).
  destruct Hcase as [[_ ->]|(pre & i & rest & [=] & _)].
  specialize (Hdom Hc).
  assert (Hin : forall k, 0 <= k < n -> is_Some (pt_files (cwd st') !! k)).
  { intros k Hk. apply elem_of_dom. rewrite Hdom.
    apply elem_of_union_r, elem_of_list_to_set, elem_of_seqZ. lia. }
  assert (Hout : pt_files (cwd st') !! n = None).
  { apply not_elem_of_dom. rewrite Hdom. intros Hx.
    apply elem_of_union in Hx as [Hx|Hx].
    - by apply not_elem_of_dom in Hfree.
    - apply elem_of_list_to_set, elem_of_seqZ in Hx. lia. }
  split; [done|]. split; [done|].
  destruct (first_missing_absent (pt_files (cwd st')))
    as (Hnone & Hpos & Hbelow).
  destruct (Z.lt_trichotomy (first_missing (pt_files (cwd st'))) n)
    as [Hlt|[Heq|Hgt]]; [|done|].
  - destruct (Hin (first_missing (pt_files (cwd st')))) as [x Hx]; [lia|].
    congruence.
  - destruct (Hbelow n) as [x Hx]; [lia|]. congruence.
Qed.

(** X15.  In search-only mode the loop stops in its first round, right
    after the dispatch: the only trace it leaves is the log record of the
    conjectures posed.  Nothing is trained, classified, reported or
    saved, and no ratio is computed, so the round ends well even with no
    conjecture at all. *)
Theorem search_only_stops_after_dispatch
    cfg (final_goals_formatted : list string) theory
    (buckets : list (string * Q)) (i : Z) (rest : list Z) st :
  mcts_only cfg = true ->
  exists st',
    run_loop cfg final_goals_formatted theory buckets (i :: rest) st
    = Ok (st', SearchOnly i)
    /\ agent st' = agent st
    /\ mle_log st' = mle_log st
    /\ proven_conjectures st' = proven_conjectures st
    /\ student_result st' = student_result st
    /\ model_info st' = model_info st
    /\ log_jsonl (cwd st')
       = log_jsonl (cwd st) ++ [LogPosing i final_goals_formatted]
    /\ pt_files (cwd st') = pt_files (cwd st)
    /\ model_pt (cwd st') = model_pt (cwd st)
    /\ model_info_yaml (cwd st') = model_info_yaml (cwd st)
    /\ examples_json (cwd st') = examples_json (cwd st)
    /\ proven_conj_json (cwd st') = proven_conj_json (cwd st).
Proof.
  intros Hm. eexists. simpl. unfold iteration. rewrite Hm. simpl.
  split; [reflexivity|]. simpl. repeat split; done.
Qed.

End LoopFurther.

Section StartFurther.
Context {Agent : Type} `{!Collaborators Agent}.

Implicit Types (cfg : Config) (d : @Dir Agent).

(** X16.  The scan of a per-iteration resume ends on the least index from 0
    that has no checkpoint, and on no other: checkpoints above a gap
    are never looked at. *)
Theorem first_missing_least (files : gmap Z Agent) (j : Z) :
  first_missing files = j
  <-> 0 <= j /\ files !! j = None
      /\ forall k, 0 <= k < j -> is_Some (files !! k).
Proof.
  destruct (first_missing_absent files) as (Hnone & Hpos & Hbelow). split.
  - by intros <-.
  - intros (Hj & Hjnone & Hjbelow).
    destruct (Z.lt_trichotomy (first_missing files) j) as [Hlt|[Heq|Hgt]];
      [|done|].
    + destruct (Hjbelow (first_missing files)) as [x Hx]; [lia|]. congruence.
    + destruct (Hbelow j) as [x Hx]; [lia|]. congruence.
Qed.

(** X17.  Continuing a per-iteration run never gets to a round: whatever
    the directory holds, the run ends with the exception of the bucket
    list when that cannot be read, and with [FileNotFoundError] from
    loading the agent otherwise. *)
Theorem teacher_loop_per_iteration_resume_raises
    cfg (final_goals_formatted : list string) (theory : string) d :
  continue_ cfg = true ->
  checkpoint_per_iteration cfg = true ->
  teacher_loop cfg final_goals_formatted theory d
  = match load_difficulty_buckets cfg with
    | Ok _ => Raise FileNotFoundError
    | Raise e => Raise e
    end.
Proof.
  intros Hcont Hc. unfold teacher_loop.
  destruct (load_difficulty_buckets cfg) as [buckets|e]; [|done]. simpl.
  rewrite Hcont. unfold resume. rewrite Hc.
  by rewrite (proj1 (first_missing_absent (pt_files d))).
Qed.

(** X18.  Continuing a rolling run, for a [model_info.yaml] that holds a
    mapping to integers.  A resume that succeeds has loaded [model.pt],
    read [model_info.yaml] and starts at the [iteration] entry plus one.
    A missing [model.pt] raises [FileNotFoundError], and so does a missing
    [model_info.yaml] once the agent is loaded; a mapping without an
    [iteration] entry raises [KeyError].  A resume that raises ends the
    run: there is no fall-back to a fresh start. *)
Theorem resume_rolling_errors
    cfg (final_goals_formatted : list string) (theory : string) d :
  checkpoint_per_iteration cfg = false ->
  (forall a mi s,
     resume cfg d = Ok (a, mi, s) ->
     model_pt d = Some a /\ model_info_yaml d = Some mi
     /\ mi !! "iteration" = Some (s - 1))
  /\ (model_pt d = None -> resume cfg d = Raise FileNotFoundError)
  /\ (forall a,
        model_pt d = Some a -> model_info_yaml d = None ->
        resume cfg d = Raise FileNotFoundError)
  /\ (forall a mi,
        model_pt d = Some a -> model_info_yaml d = Some mi ->
        mi !! "iteration" = None -> resume cfg d = Raise KeyError)
  /\ (forall e,
        continue_ cfg = true -> resume cfg d = Raise e ->
        exists e', teacher_loop cfg final_goals_formatted theory d = Raise e').
Proof.
  intros Hc. unfold teacher_loop, resume. rewrite Hc.
  split; [|split; [|split; [|split]]].
  - intros a mi s.
    destruct (model_pt d) as [a'|]; simpl; [|done].
    destruct (model_info_yaml d) as [mi'|]; simpl; [|done].
    destruct (mi' !! "iteration") as [k|] eqn:Hk; simpl; [|done].
    intros [= <- <- <-]. do 2 (split; [done|]). rewrite Hk. f_equal. lia.
  - by intros ->.
  - by intros a -> ->.
  - intros a mi -> -> Hk. simpl. by rewrite Hk.
  - intros e -> Hres.
    destruct (load_difficulty_buckets cfg) as [buckets|e0]; simpl;
      [|by exists e0].
    rewrite Hres. by exists e.
Qed.

(** X19.  Continuing a rolling run that has already reached
    [total_iterations] runs no round, trains and saves nothing, and
    leaves the loaded agent as it is; the one thing it does to the
    directory is to empty [log.jsonl]. *)
Theorem rolling_resume_nothing_left
    cfg (final_goals_formatted : list string) (theory : string) d
    (buckets : list (string * Q)) a (mi : gmap string Z) (k : Z) :
  continue_ cfg = true ->
  checkpoint_per_iteration cfg = false ->
  load_difficulty_buckets cfg = Ok buckets ->
  model_pt d = Some a ->
  model_info_yaml d = Some mi ->
  mi !! "iteration" = Some k ->
  total_iterations cfg <= k + 1 ->
  exists st',
    teacher_loop cfg final_goals_formatted theory d = Ok (st', Exhausted)
    /\ agent st' = a
    /\ mle_log st' = []
    /\ log_jsonl (cwd st') = []
    /\ pt_files (cwd st') = pt_files d
    /\ model_pt (cwd st') = model_pt d
    /\ model_info_yaml (cwd st') = model_info_yaml d
    /\ examples_json (cwd st') = examples_json d
    /\ proven_conj_json (cwd st') = proven_conj_json d.
Proof.
  intros Hcont Hc Hb Ha Hy Hk Htot.
  exists (initial_state a mi d). unfold teacher_loop.
  rewrite Hb, Hcont, (resume_rolling cfg d a mi k Hc Ha Hy Hk). simpl.
  rewrite seqZ_nil by lia. simpl. repeat split; done.
Qed.

End StartFurther.

(** ** The bucket list *)

Lemma insert_bucket_Permutation kv l : insert_bucket kv l ≡ₚ kv :: l.
Proof.
  induction l as [|kv' l IH]; simpl; [done|].
  destruct (Qle_bool (snd kv) (snd kv')); [done|].
  rewrite IH. apply Permutation_swap.
Qed.

Lemma sorted_by_percentile_Permutation l : sorted_by_percentile l ≡ₚ l.
Proof.
  induction l as [|kv l IH]; simpl; [done|].
  by rewrite insert_bucket_Permutation, IH.
Qed.

Lemma rmap_head_spec (l : list (list (string * Q))) :
  match rmap (fun d => or_raise IndexError (head d)) l with
  | Ok items => Forall2 (fun d kv => head d = Some kv) l items
  | Raise e => e = IndexError /\ [] ∈ l
  end.
Proof.
  induction l as [|d l IH]; simpl; [constructor|].
  destruct d as [|kv d']; simpl.
  - split; [done|by left].
  - destruct (rmap _ l) as [items|e]; simpl.
    + by constructor.
    + destruct IH as [-> Hin]. split; [done|by right].
Qed.

(** X20.  The bucket list the loop works with holds the first item of
    every configured mapping, each once, in ascending order of
    percentile.  It cannot be built, and [IndexError] is raised, exactly
    when one of the mappings is empty. *)
Theorem load_difficulty_buckets_sorted (cfg : Config) :
  (forall buckets,
     load_difficulty_buckets cfg = Ok buckets ->
     StronglySorted percentile_le buckets
     /\ exists items,
          Forall2 (fun d kv => head d = Some kv) (difficulty_buckets cfg) items
          /\ buckets ≡ₚ items)
  /\ (load_difficulty_buckets cfg = Raise IndexError
      <-> [] ∈ difficulty_buckets cfg)
  /\ (forall e, load_difficulty_buckets cfg = Raise e -> e = IndexError).
Proof.
  unfold load_difficulty_buckets.
  pose proof (rmap_head_spec (difficulty_buckets cfg)) as Hspec.
  destruct (rmap _ (difficulty_buckets cfg)) as [items|e]; simpl.
  - split; [|split].
    + intros buckets [= <-]. split; [apply sorted_by_percentile_sorted|].
      exists items. split; [done|apply sorted_by_percentile_Permutation].
    + split; [done|]. intros Hin. exfalso.
      apply list_elem_of_lookup in Hin as [k Hk].
      destruct (Forall2_lookup_l _ _ _ _ _ Hspec Hk) as (kv & _ & Hhd).
      done.
    + done.
  - destruct Hspec as [-> Hin]. split; [done|]. split; [done|].
    by intros e [= <-].
Qed.

Section RoundFurther.
Context {Agent : Type} `{!Collaborators Agent}.

Implicit Types (cfg : Config) (st : @LoopState Agent) (theory : string).

Lemma filter_map_length {A B : Type} (p : B -> bool) (f : A -> B) (l : list A) :
  length (List.filter p (map f l))
  = length (List.filter (fun x => p (f x)) l).
Proof.
  induction l as [|x l IH]; simpl; [done|].
  destruct (p (f x)); simpl; by rewrite IH.
Qed.

(** X21.  What a round that ran to its end leaves fits together: the
    agent it leaves is the agent it started with, trained once on the
    examples saved in [examples_{i}.json] with the ratio that is
    reported; the second log record counts these examples; and the
    checkpoint of the mode in use holds the agent after training. *)
Theorem round_artifacts_consistent
    cfg (final_goals_formatted : list string) theory
    (buckets : list (string * Q)) (i : Z) st st' t :
  mcts_only cfg = false ->
  iteration cfg final_goals_formatted theory buckets i st = Ok (st', t) ->
  exists ex row,
    examples_json (cwd st') !! i = Some ex
    /\ last (mle_log st') = Some row
    /\ agent st'
       = train (agent st) ex (final_goals final_goals_formatted)
           (ratio_proven row)
    /\ log_jsonl (cwd st')
       = log_jsonl (cwd st)
         ++ [LogPosing i final_goals_formatted; LogTraining i (length ex)]
    /\ (if checkpoint_per_iteration cfg
        then pt_files (cwd st') !! i = Some (agent st')
        else model_pt (cwd st') = Some (agent st')).
Proof.
  intros Hm Hit.
  destruct (iteration_inv _ _ _ _ _ _ _ _ Hm Hit)
    as (ratio & ex & seen & mean & _ & _ & Heq).
  apply (f_equal fst) in Heq. cbn [fst] in Heq. subst st'.
  exists ex. eexists. unfold finish_round. simpl.
  split; [destruct (checkpoint_per_iteration cfg); simpl;
          by rewrite lookup_insert_eq|].
  split; [apply last_snoc|]. simpl. split; [done|].
  split.
  { destruct (checkpoint_per_iteration cfg); simpl;
      by rewrite <- app_assoc. }
  destruct (checkpoint_per_iteration cfg); simpl; [|done].
  by rewrite lookup_insert_eq.
Qed.

(** X22.  The validation figures of a round are those of the agent after
    training: the reported loss is its validation loss, and the number of
    final goals reported as proven is the number of held-out goals whose
    validation job returned a result within [max_mcts_nodes] steps, so at
    most the number of held-out goals. *)
Theorem final_goals_proven_counts
    cfg (final_goals_formatted : list string) theory
    (buckets : list (string * Q)) (i : Z) st st' t :
  mcts_only cfg = false ->
  iteration cfg final_goals_formatted theory buckets i st = Ok (st', t) ->
  exists row,
    last (mle_log st') = Some row
    /\ num_iterations row = i
    /\ val_loss row
       = fst (get_val_loss (agent st') final_goals_formatted theory
                (premises cfg))
    /\ final_goals_proven row
       = length
           (List.filter
              (fun r => negb (truthy (error r))
                        && (iterations r <=? max_mcts_nodes cfg))
              (job_results (agent st') theory (premises cfg) true
                 final_goals_formatted))
    /\ (final_goals_proven row <= length final_goals_formatted)%nat.
Proof.
  intros Hm Hit.
  destruct (iteration_inv _ _ _ _ _ _ _ _ Hm Hit)
    as (ratio & ex & seen & mean & _ & _ & Heq).
  apply (f_equal fst) in Heq. cbn [fst] in Heq.
  destruct (finish_round_fst cfg final_goals_formatted theory i st
              (log_write (LogPosing i final_goals_formatted) (cwd st))
              (classify cfg theory st
                 (results_to_classify st
                    (prove_conjectures (agent st) final_goals_formatted
                       theory (premises cfg) false)))
              ratio ex seen mean) as (Hag & _ & _ & Hlog).
  rewrite <- Heq in Hag, Hlog. rewrite <- Hag in Hlog.
  eexists. split; [rewrite Hlog; apply last_snoc|].
  cbn [num_iterations val_loss final_goals_proven].
  split; [done|]. split; [done|].
  assert (Hcount :
    length (List.filter (fun s => s <=? max_mcts_nodes cfg)
              (snd (get_val_loss (agent st') final_goals_formatted theory
                      (premises cfg))))
    = length
        (List.filter
           (fun r => negb (truthy (error r))
                     && (iterations r <=? max_mcts_nodes cfg))
           (job_results (agent st') theory (premises cfg) true
              final_goals_formatted))).
  { unfold get_val_loss. cbn [snd]. rewrite filter_map_length.
    by rewrite prove_conjectures_filter, filter_filter_andb. }
  rewrite Hcount. split; [done|].
  etrans; [apply filter_length_le|]. unfold job_results.
  by rewrite length_map.
Qed.

End RoundFurther.

(* ===================================================================== *)
(** * The further properties on concrete inputs *)

Section FurtherExamples.
#[local] Existing Instance toy.

Lemma prove_conjectures_without_errors_witness :
  length (prove_conjectures O ["a"; "b"] "th" [] false) = 2%nat.
Proof.
  refine (proj1 (prove_conjectures_without_errors O ["a"; "b"] "th" []
                   false _)).
  intros c Hc. apply elem_of_cons in Hc as [->|Hc]; [reflexivity|].
  apply list_elem_of_singleton in Hc as ->. reflexivity.
Defined.

Lemma ratio_proven_between_0_and_1_witness :
  (0 <= inject_Z 2 / inject_Z 3)%Q /\ (inject_Z 2 / inject_Z 3 <= 1)%Q.
Proof.
  apply (ratio_proven_between_0_and_1 O ["a"; "b"; "e"] "th" []).
  reflexivity.
Defined.

Lemma val_loss_nonnegative_witness :
  (0 <= fst (get_val_loss 1%nat ["a"; "b"; "e"] "th" []))%Q.
Proof.
  apply val_loss_nonnegative. intros r Hr _. vm_compute in Hr.
  apply elem_of_cons in Hr as [->|Hr]; [by vm_compute|].
  apply list_elem_of_singleton in Hr as ->. by vm_compute.
Defined.

Lemma iteration_appends_proven_witness :
  exists st',
    iteration (toy_cfg false false false 10) ["a"; "f"; "b"] "th" toy_buckets
      0 toy_state = Ok (st', None)
    /\ proven_conjectures st' = ["a"; "b"]
    /\ proofs st' = ["proof of a"; "proof of b"]
    /\ proven_conj_json (cwd st') !! 0 = Some ["a"; "b"].
Proof.
  eassert (Hit : iteration (toy_cfg false false false 10) ["a"; "f"; "b"]
                   "th" toy_buckets 0 toy_state = Ok (_, None)).
  { vm_compute. reflexivity. }
  eexists. split; [exact Hit|].
  exact (iteration_appends_proven (toy_cfg false false false 10) _ _ _ _ _ _ _
              eq_refl Hit).
Defined.

Lemma proofs_match_proven_conjectures_witness :
  exists st',
    run_loop (toy_cfg false false false 10) ["a"; "f"] "th" toy_buckets
      [0; 1] toy_state = Ok (st', Exhausted)
    /\ length (proofs st') = length (proven_conjectures st').
Proof.
  eassert (Hrun : run_loop (toy_cfg false false false 10) ["a"; "f"] "th"
                    toy_buckets [0; 1] toy_state = Ok (_, Exhausted)).
  { vm_compute. reflexivity. }
  eexists. split; [exact Hrun|].
  apply (proofs_match_proven_conjectures
           (toy_cfg false false false 10) ["a"; "f"] "th" toy_buckets).
  exact (run_loop_reachable _ _ _ _ _ _ _ _
           (reach_init _ _ _ _ O ∅ empty_dir) Hrun).
Defined.

Lemma converged_only_if_all_solved_witness :
  exists st',
    iteration (toy_cfg false false false 10) ["a"; "b"] "th" toy_buckets
      0 toy_state = Ok (st', Some (Converged 0))
    /\ early_exit (toy_cfg false false false 10) = true
    /\ forall g, g ∈ ["a"; "b"] ->
         iterations (toy_try_prove (agent st')
                       {| bt_theory := "th"; bt_premises := [] |} g true)
         <= 10.
Proof.
  eassert (Hit : iteration (toy_cfg false false false 10) ["a"; "b"] "th"
                   toy_buckets 0 toy_state = Ok (_, Some (Converged 0))).
  { vm_compute. reflexivity. }
  destruct (converged_only_if_all_solved _ _ _ _ _ _ _ _ Hit)
    as (_ & He & _ & Hall).
  eexists. split; [exact Hit|]. split; [exact He|].
  intros g Hg. exact (proj2 (Hall g Hg)).
Defined.

Lemma run_loop_metrics_rows_witness :
  exists st',
    run_loop (toy_cfg false false false 10) ["a"; "f"] "th" toy_buckets
      [0; 1] toy_state = Ok (st', Exhausted)
    /\ (num_iterations <$> mle_log st') = [0; 1].
Proof.
  eassert (Hrun : run_loop (toy_cfg false false false 10) ["a"; "f"] "th"
                    toy_buckets [0; 1] toy_state = Ok (_, Exhausted)).
  { vm_compute. reflexivity. }
  destruct (run_loop_metrics_rows (toy_cfg false false false 10) _ _ _ _ _ _ _
              eq_refl Hrun)
    as [(rounds & Hrows & Hcase) _].
  eexists. split; [exact Hrun|].
  destruct Hcase as [[_ ->]|(pre & i & rest & Ht & _)]; [exact Hrows|].
  discriminate Ht.
Defined.

Lemma checkpoint_modes_keep_apart_witness :
  exists st',
    run_loop (toy_cfg true false false 10) ["a"; "f"] "th" toy_buckets
      [0; 1] toy_state = Ok (st', Exhausted)
    /\ model_pt (cwd st') = None
    /\ model_info_yaml (cwd st') = None.
Proof.
  eassert (Hrun : run_loop (toy_cfg true false false 10) ["a"; "f"] "th"
                    toy_buckets [0; 1] toy_state = Ok (_, Exhausted)).
  { vm_compute. reflexivity. }
  destruct (proj2 (checkpoint_modes_keep_apart
                     (toy_cfg true false false 10) _ _ _ _ _ _ _ Hrun)
              eq_refl)
    as (Hpt & Hy & _).
  eexists. split; [exact Hrun|]. split; [exact Hpt|exact Hy].
Defined.

Lemma per_iteration_run_then_scan_witness :
  exists st',
    run_loop (toy_cfg true false false 10) ["a"; "f"] "th" toy_buckets
      (seqZ 0 2) toy_state = Ok (st', Exhausted)
    /\ first_missing (pt_files (cwd st')) = 2.
Proof.
  eassert (Hrun : run_loop (toy_cfg true false false 10) ["a"; "f"] "th"
                    toy_buckets (seqZ 0 2) toy_state = Ok (_, Exhausted)).
  { vm_compute. reflexivity. }
  eexists. split; [exact Hrun|].
  refine (proj2 (proj2 (per_iteration_run_then_scan
                          (toy_cfg true false false 10) _ _ _ 2 toy_state _
                          eq_refl eq_refl _ eq_refl Hrun))).
  lia.
Defined.

Lemma search_only_stops_after_dispatch_witness :
  exists st',
    run_loop (toy_cfg false false true 10) [] "th" toy_buckets [0; 1; 2]
      toy_state = Ok (st', SearchOnly 0)
    /\ agent st' = O
    /\ mle_log st' = [].
Proof.
  destruct (search_only_stops_after_dispatch
              (toy_cfg false false true 10) [] "th" toy_buckets 0 [1; 2]
              toy_state eq_refl)
    as (st' & Hrun & Hag & Hlog & _).
  exists st'. split; [exact Hrun|]. split; [exact Hag|exact Hlog].
Defined.

Lemma teacher_loop_per_iteration_resume_raises_witness :
  teacher_loop (toy_cfg true false false 10) ["a"; "b"] "th" dir_012
  = Raise FileNotFoundError.
Proof.
  exact (teacher_loop_per_iteration_resume_raises
           (toy_cfg true false false 10) ["a"; "b"] "th" dir_012
           eq_refl eq_refl).
Defined.

Lemma resume_rolling_errors_witness :
  resume (toy_cfg false false false 10) empty_dir = Raise FileNotFoundError
  /\ resume (toy_cfg false false false 10)
       (@save_rolling nat 5%nat ∅ empty_dir) = Raise KeyError.
Proof.
  split.
  - exact (proj1 (proj2 (resume_rolling_errors
                           (toy_cfg false false false 10) [] "th" empty_dir
                           eq_refl))
             eq_refl).
  - exact (proj1 (proj2 (proj2 (proj2 (resume_rolling_errors
                                         (toy_cfg false false false 10) []
                                         "th"
                                         (@save_rolling nat 5%nat ∅ empty_dir)
                                         eq_refl))))
             5%nat ∅ eq_refl eq_refl eq_refl).
Defined.

Lemma rolling_resume_nothing_left_witness :
  exists st',
    teacher_loop (toy_cfg false false false 10) ["a"; "f"] "th"
      (@save_rolling nat 5%nat (<["iteration" := 9]> ∅)
         (log_write (LogPosing 9 ["a"; "f"]) empty_dir))
    = Ok (st', Exhausted)
    /\ agent st' = 5%nat
    /\ log_jsonl (cwd st') = [].
Proof.
  destruct (rolling_resume_nothing_left
              (toy_cfg false false false 10) ["a"; "f"] "th"
              (@save_rolling nat 5%nat (<["iteration" := 9]> ∅)
                 (log_write (LogPosing 9 ["a"; "f"]) empty_dir))
              toy_buckets 5%nat (<["iteration" := 9]> ∅) 9
              eq_refl eq_refl eq_refl eq_refl eq_refl
              ltac:(apply lookup_insert_eq) ltac:(simpl; lia))
    as (st' & Hrun & Hag & _ & Hlog & _).
  exists st'. split; [exact Hrun|]. split; [exact Hag|exact Hlog].
Defined.

Lemma round_artifacts_consistent_witness :
  exists st' ex,
    iteration (toy_cfg false false false 10) ["a"; "f"; "b"] "th" toy_buckets
      0 toy_state = Ok (st', None)
    /\ examples_json (cwd st') !! 0 = Some ex
    /\ log_jsonl (cwd st')
       = [LogPosing 0 ["a"; "f"; "b"]; LogTraining 0 (length ex)]
    /\ model_pt (cwd st') = Some (agent st').
Proof.
  eassert (Hit : iteration (toy_cfg false false false 10) ["a"; "f"; "b"]
                   "th" toy_buckets 0 toy_state = Ok (_, None)).
  { vm_compute. reflexivity. }
  destruct (round_artifacts_consistent (toy_cfg false false false 10) _ _ _ _ _ _ _
              eq_refl Hit)
    as (ex & row & Hex & _ & _ & Hlog & Hpt).
  eexists _, ex. split; [exact Hit|]. split; [exact Hex|].
  split; [exact Hlog|exact Hpt].
Defined.

(** Validation step counts 5, 30 and 7 against a budget of 10: two of the
    three final goals count as proven. *)
Lemma final_goals_proven_counts_witness :
  exists st' row,
    iteration (toy_cfg false false false 10) ["a"; "f"; "b"] "th" toy_buckets
      0 toy_state = Ok (st', None)
    /\ last (mle_log st') = Some row
    /\ final_goals_proven row = 2%nat.
Proof.
  eassert (Hit : iteration (toy_cfg false false false 10) ["a"; "f"; "b"]
                   "th" toy_buckets 0 toy_state = Ok (_, None)).
  { vm_compute. reflexivity. }
  destruct (final_goals_proven_counts (toy_cfg false false false 10) _ _ _ _ _ _ _
              eq_refl Hit)
    as (row & Hlast & _ & _ & Hcount & _).
  eexists _, row. split; [exact Hit|]. split; [exact Hlast|].
  rewrite Hcount. reflexivity.
Defined.

End FurtherExamples.
